(** * Student management: repository, validation and storage

    A shallow embedding of the student-record tool:
    - [init_db.py]: the [students] table and its sample rows;
    - [student_manager.py]: the repository functions behind the menu;
    - [backend.py]: the HTTP handlers and their [validate_json] decorator.

    The storage engine is SQLite.  Every statement the program sends is
    modelled by one function on the table, following the engine's rules
    for the constructs the statements use: [NOT NULL], [UNIQUE] and
    [CHECK] constraints (a [CHECK] whose value is NULL passes), the
    [AUTOINCREMENT] row id, three-valued comparisons, aggregates that
    skip NULL, and [ORDER BY].

    Modelling boundary: integers are [Z] (the 64-bit range of the engine's
    INTEGER is not represented); a request body is a JSON object whose
    values have the type their column expects or are [null]; AVG is an
    exact rational where the engine returns the nearest double; the clock
    behind [CURRENT_TIMESTAMP] is a parameter [now]. *)

From Stdlib Require Import QArith.
From stdpp Require Import gmap strings pretty list fin_maps sorting.

Open Scope string_scope.
Open Scope Z_scope.

(** ** Schema ([init_db.py], lines 9-17) *)

Record column := Column {
  col_name : string;
  col_not_null : bool;
  col_unique : bool
}.

Definition id_col := Column "id" false true.
Definition name_col := Column "name" true false.
Definition email_col := Column "email" true true.
Definition grade_col := Column "grade" false false.
Definition created_at_col := Column "created_at" false false.

(** Column order of [SELECT *]. *)
Definition students_schema : list column :=
  [id_col; name_col; email_col; grade_col; created_at_col].

(** The non-key columns of a stored row.  [name] and [email] are
    [NOT NULL], so a stored row always has them; [grade] may be NULL;
    [created_at] is filled by its default at insertion. *)
Record row := Row {
  r_name : string;
  r_email : string;
  r_grade : option Z;
  r_created_at : string
}.

(** The database file: the table keyed by [id] and the counter that
    [AUTOINCREMENT] keeps in [sqlite_sequence]. *)
Record db := Db {
  students : gmap Z row;
  seq : Z
}.

Definition empty_db : db := Db ∅ 0.

(** What [dict(row)] of a [SELECT *] holds. *)
Record student := Student {
  id : Z;
  name : string;
  email : string;
  grade : option Z;
  created_at : string
}.

Definition student_of (kv : Z * row) : student :=
  Student kv.1 (r_name kv.2) (r_email kv.2) (r_grade kv.2) (r_created_at kv.2).

(** ** Three-valued logic of the engine *)

(** [None] is NULL. *)
Definition sql_ge (a : option Z) (b : Z) : option bool :=
  match a with Some x => Some (b <=? x) | None => None end.

Definition sql_le (a : option Z) (b : Z) : option bool :=
  match a with Some x => Some (x <=? b) | None => None end.

Definition sql_lt (a : option Z) (b : Z) : option bool :=
  match a with Some x => Some (x <? b) | None => None end.

Definition sql_and (a b : option bool) : option bool :=
  match a, b with
  | Some false, _ | _, Some false => Some false
  | Some true, Some true => Some true
  | _, _ => None
  end.

(** A [WHERE] or [CASE WHEN] condition selects only when it is true. *)
Definition sql_true (c : option bool) : bool :=
  match c with Some true => true | _ => false end.

(** A [CHECK] constraint is violated only when it is false. *)
Definition sql_check (c : option bool) : bool :=
  match c with Some false => false | _ => true end.

(** [CHECK(grade >= 0 AND grade <= 100)] *)
Definition check_grade (g : option Z) : bool :=
  sql_check (sql_and (sql_ge g 0) (sql_le g 100)).

(** A column accepts NULL unless it is declared [NOT NULL]. *)
Definition check_not_null {A} (c : column) (v : option A) : bool :=
  negb (col_not_null c) || bool_decide (is_Some v).

(** ** Errors and statements *)

Inductive constraint :=
  | NotNull (c : column)
  | Check_grade
  | Unique (c : column).

(** Python exceptions the modelled code can raise. *)
Inductive exn :=
  | ValueError (msg : string)
  | TypeError
  | KeyError (key : string)
  | IntegrityError (c : constraint)
  | HTTPException (code : Z) (description : string).

(** The statements of the program, as sent to [conn.execute]. *)
Inductive stmt :=
  | SelectAllByName
  | SelectByMinGrade (min_grade : Z)
  | SelectById (i : Z)
  | SelectIdById (i : Z)
  | SelectStatistics
  | Insert (n e : option string) (g : option Z)
  | Update (i : Z) (n e : option string) (g : option Z)
  | Delete (i : Z).

(** ** The engine: writing statements *)

(** [email TEXT UNIQUE]: is [e] the email of a stored row other than
    [self]? *)
Definition email_taken (t : gmap Z row) (self : option Z) (e : string) : bool :=
  col_unique email_col &&
  bool_decide (map_Exists (λ k r, Some k ≠ self ∧ r_email r = e) t).

(** The column constraints on the three bound values, in the order in
    which the engine tests them: [NOT NULL] on name and on email (the two
    [None] cases), [NOT NULL] on grade where the schema declares it, then
    the [CHECK]. *)
Definition checked_row (n e : option string) (g : option Z) (ts : string)
  : constraint + row :=
  match n, e with
  | None, _ => inl (NotNull name_col)
  | Some _, None => inl (NotNull email_col)
  | Some n', Some e' =>
      if negb (check_not_null grade_col g) then inl (NotNull grade_col)
      else if negb (check_grade g) then inl Check_grade
      else inr (Row n' e' g ts)
  end.

Definition max_rowid (t : gmap Z row) : Z :=
  foldr Z.max 0 (map_to_list t).*1.

(** [AUTOINCREMENT]: one more than every id ever handed out. *)
Definition next_rowid (d : db) : Z :=
  Z.max (seq d) (max_rowid (students d)) + 1.

(** [INSERT INTO students (name, email, grade) VALUES (?, ?, ?)] at time
    [now]: the new id, or the violated constraint and no change. *)
Definition engine_insert (now : string) (n e : option string) (g : option Z)
    (d : db) : (constraint + Z) * db :=
  match checked_row n e g now with
  | inl c => (inl c, d)
  | inr r =>
      if email_taken (students d) None (r_email r) then (inl (Unique email_col), d)
      else let k := next_rowid d in
           (inr k, Db (<[k := r]> (students d)) k)
  end.

(** [INSERT OR IGNORE ...]: a violating row is skipped without an error;
    the id drawn for it is spent all the same. *)
Definition engine_insert_or_ignore (now : string) (n e : option string)
    (g : option Z) (d : db) : db :=
  match engine_insert now n e g d with
  | (inr _, d') => d'
  | (inl _, _) => Db (students d) (next_rowid d)
  end.

(** [UPDATE students SET name = ?, email = ?, grade = ? WHERE id = ?]: the
    number of rows changed, or the violated constraint and no change.  No
    constraint is tested when no row matches. *)
Definition engine_update (i : Z) (n e : option string) (g : option Z)
    (d : db) : (constraint + Z) * db :=
  match students d !! i with
  | None => (inr 0, d)
  | Some old =>
      match checked_row n e g (r_created_at old) with
      | inl c => (inl c, d)
      | inr r =>
          if email_taken (students d) (Some i) (r_email r)
          then (inl (Unique email_col), d)
          else (inr 1, Db (<[i := r]> (students d)) (seq d))
      end
  end.

(** [DELETE FROM students WHERE id = ?]: the number of rows removed. *)
Definition engine_delete (i : Z) (d : db) : Z * db :=
  match students d !! i with
  | None => (0, d)
  | Some _ => (1, Db (delete i (students d)) (seq d))
  end.

(** ** The engine: reading statements *)

Definition by_id : relation (Z * row) := λ a b, a.1 ≤ b.1.

Global Instance by_id_dec : RelDecision by_id.
Proof. intros a b. unfold by_id. apply _. Defined.

(** The table in row-id order, one [dict] per row.  The engine leaves the
    order of rows that compare equal under [ORDER BY] open; no property
    below depends on it. *)
Definition scan (d : db) : list student :=
  student_of <$> merge_sort by_id (map_to_list (students d)).

(** The engine's order on a nullable integer: NULL sorts first. *)
Definition sql_leb (a b : option Z) : bool :=
  match a, b with
  | None, _ => true
  | Some _, None => false
  | Some x, Some y => x <=? y
  end.

(** [ORDER BY name]: bytewise comparison of the text. *)
Definition by_name : relation student :=
  λ a b, String.leb (name a) (name b) = true.

(** [ORDER BY grade DESC] *)
Definition by_grade_desc : relation student :=
  λ a b, sql_leb (grade b) (grade a) = true.

Global Instance by_name_dec : RelDecision by_name.
Proof. intros a b. unfold by_name. apply _. Defined.

Global Instance by_grade_desc_dec : RelDecision by_grade_desc.
Proof. intros a b. unfold by_grade_desc. apply _. Defined.

(** [SELECT * FROM students ORDER BY name] *)
Definition select_all_by_name (d : db) : list student :=
  merge_sort by_name (scan d).

(** [WHERE grade >= ?] *)
Definition grade_at_least (min_grade : Z) (s : student) : bool :=
  sql_true (sql_ge (grade s) min_grade).

(** [SELECT * FROM students WHERE grade >= ? ORDER BY grade DESC] *)
Definition select_by_min_grade (min_grade : Z) (d : db) : list student :=
  merge_sort by_grade_desc (filter (λ s, grade_at_least min_grade s) (scan d)).

(** [SELECT * FROM students WHERE id = ?] *)
Definition select_by_id (i : Z) (d : db) : option student :=
  (λ r, student_of (i, r)) <$> students d !! i.

(** [SELECT id FROM students WHERE id = ?] *)
Definition select_id_by_id (i : Z) (d : db) : option Z :=
  (λ _, i) <$> students d !! i.

(** The record of the aggregate query. *)
Record statistics := Statistics {
  total_students : Z;
  average_grade : option Q;
  highest_grade : option Z;
  lowest_grade : option Z;
  a_students : Z;
  b_students : Z;
  c_students : Z;
  failing_students : Z
}.

(** The four [CASE WHEN] conditions. *)
Definition is_a (s : student) : option bool := sql_ge (grade s) 90.
Definition is_b (s : student) : option bool :=
  sql_and (sql_ge (grade s) 80) (sql_lt (grade s) 90).
Definition is_c (s : student) : option bool :=
  sql_and (sql_ge (grade s) 70) (sql_lt (grade s) 80).
Definition is_failing (s : student) : option bool := sql_lt (grade s) 70.

(** [COUNT( * )] *)
Definition count_star (l : list student) : Z := Z.of_nat (length l).

(** [COUNT(CASE WHEN c THEN 1 END)]: the [CASE] is NULL unless [c] is
    true, and [COUNT] skips NULL. *)
Definition count_when (c : student → option bool) (l : list student) : Z :=
  Z.of_nat (length (filter (λ s, sql_true (c s)) l)).

(** The grades an aggregate sees: NULL is skipped. *)
Definition grades (l : list student) : list Z := omap grade l.

(** [AVG(grade)], NULL when there is no grade to average. *)
Definition sql_avg (l : list student) : option Q :=
  match grades l with
  | [] => None
  | g :: gs =>
      Some (Qdiv (inject_Z (foldr Z.add 0 (g :: gs)))
                 (inject_Z (Z.of_nat (length (g :: gs)))))
  end.

Definition sql_max (l : list student) : option Z :=
  match grades l with
  | [] => None
  | g :: gs => Some (foldr Z.max g gs)
  end.

Definition sql_min (l : list student) : option Z :=
  match grades l with
  | [] => None
  | g :: gs => Some (foldr Z.min g gs)
  end.

(** The aggregate query of [get_statistics]; without [GROUP BY] it yields
    exactly one row, also on an empty table. *)
Definition select_statistics (d : db) : statistics :=
  let l := scan d in
  Statistics (count_star l) (sql_avg l) (sql_max l) (sql_min l)
    (count_when is_a l) (count_when is_b l) (count_when is_c l)
    (count_when is_failing l).

(** ** Running Python code against the database *)

(** The database file and the statements sent so far, oldest first. *)
Record session := Session {
  data : db;
  sent : list stmt
}.

Inductive result (A : Type) :=
  | Return (a : A)
  | Raise (e : exn).
Arguments Return {A} a.
Arguments Raise {A} e.

Definition py (A : Type) : Type := session → result A * session.

Global Instance py_ret : MRet py := λ A a s, (Return a, s).

Global Instance py_bind : MBind py := λ A B f m s,
  match m s with
  | (Return a, s') => f a s'
  | (Raise e, s') => (Raise e, s')
  end.

Definition raise {A} (e : exn) : py A := λ s, (Raise e, s).

(** [try: m  except <caught>: h] *)
Definition try_except {A} (m : py A) (caught : exn → bool) (h : py A) : py A :=
  λ s, match m s with
       | (Raise e, s') => if caught e then h s' else (Raise e, s')
       | r => r
       end.

Definition log (q : stmt) (s : session) : list stmt := sent s ++ [q].

(** [conn.execute] of a [SELECT], with the rows fetched. *)
Definition execute_query {A} (q : stmt) (rows : db → A) : py A :=
  λ s, (Return (rows (data s)), Session (data s) (log q s)).

(** [conn.execute] of the [INSERT] and [conn.commit()]; gives
    [cursor.lastrowid].  A violated constraint raises at [execute]; the
    connection is then closed with nothing committed. *)
Definition execute_insert (now : string) (n e : option string) (g : option Z)
  : py Z :=
  λ s, match engine_insert now n e g (data s) with
       | (inr k, d') => (Return k, Session d' (log (Insert n e g) s))
       | (inl c, d') => (Raise (IntegrityError c), Session d' (log (Insert n e g) s))
       end.

(** [conn.execute] of the [UPDATE] and [conn.commit()]; gives
    [cursor.rowcount]. *)
Definition execute_update (i : Z) (n e : option string) (g : option Z) : py Z :=
  λ s, match engine_update i n e g (data s) with
       | (inr k, d') => (Return k, Session d' (log (Update i n e g) s))
       | (inl c, d') => (Raise (IntegrityError c), Session d' (log (Update i n e g) s))
       end.

(** [conn.execute] of the [DELETE] and [conn.commit()]; gives
    [cursor.rowcount]. *)
Definition execute_delete (i : Z) : py Z :=
  λ s, let '(k, d') := engine_delete i (data s) in
       (Return k, Session d' (log (Delete i) s)).

(** [0 <= grade <= 100] *)
Definition grade_in_range (g : Z) : bool := (0 <=? g) && (g <=? 100).

Definition grade_message : string := "Grade must be between 0 and 100".

(** ** [init_db.py] *)

Module init_db.

Definition sample_students : list (string * string * Z) :=
  [ ("Alice Johnson", "alice@school.edu", 92);
    ("Bob Smith", "bob@school.edu", 78);
    ("Charlie Brown", "charlie@school.edu", 85);
    ("Diana Prince", "diana@school.edu", 95);
    ("Eve Adams", "eve@school.edu", 88) ].

(** The script: [CREATE TABLE IF NOT EXISTS] keeps an existing table and
    otherwise makes an empty one ([None] is a file without the table);
    [executemany] then runs the [INSERT OR IGNORE] once per sample. *)
Definition run (now : string) (file : option db) : db :=
  foldl (λ d '(n, e, g), engine_insert_or_ignore now (Some n) (Some e) (Some g) d)
        (default empty_db file) sample_students.

End init_db.

(** ** [student_manager.py], lines 15-96 *)

Module student_manager.

Definition get_all_students : py (list student) :=
  execute_query SelectAllByName select_all_by_name.

Definition get_student_by_id (student_id : Z) : py (option student) :=
  execute_query (SelectById student_id) (select_by_id student_id).

Definition add_student (now : string) (name email : string) (grade : Z) : py Z :=
  if negb (grade_in_range grade) then raise (ValueError grade_message)
  else execute_insert now (Some name) (Some email) (Some grade).

Definition update_student (student_id : Z) (name email : string) (grade : Z)
  : py bool :=
  if negb (grade_in_range grade) then raise (ValueError grade_message)
  else rowcount ← execute_update student_id (Some name) (Some email) (Some grade);
       mret (0 <? rowcount).

Definition delete_student (student_id : Z) : py bool :=
  rowcount ← execute_delete student_id;
  mret (0 <? rowcount).

(** [dict(row) if row else None]: the aggregate row always exists. *)
Definition get_statistics : py (option statistics) :=
  execute_query SelectStatistics (λ d, Some (select_statistics d)).

Definition filter_students_by_grade (min_grade : Z) : py (list student) :=
  execute_query (SelectByMinGrade min_grade) (select_by_min_grade min_grade).

End student_manager.

(** ** [backend.py] *)

Module backend.

(** One key of the JSON body: missing, [null], or a value of the type the
    column expects. *)
Inductive field (A : Type) :=
  | absent
  | null
  | value (a : A).
Arguments absent {A}.
Arguments null {A}.
Arguments value {A} a.

(** [request.json], a JSON object. *)
Record body := Body {
  name_field : field string;
  email_field : field string;
  grade_field : field Z;
  other_keys : list string
}.

Definition present {A} (f : field A) : bool :=
  match f with absent => false | _ => true end.

(** [field in request.json] *)
Definition contains (b : body) (key : string) : bool :=
  if decide (key = "name") then present (name_field b)
  else if decide (key = "email") then present (email_field b)
  else if decide (key = "grade") then present (grade_field b)
  else bool_decide (key ∈ other_keys b).

(** Truth value of [request.json]: an empty object is false. *)
Definition truthy (b : body) : bool :=
  present (name_field b) || present (email_field b) || present (grade_field b)
  || negb (bool_decide (other_keys b = [])).

(** [data[key]] *)
Definition getitem {A} (key : string) (f : field A) : py (option A) :=
  match f with
  | absent => raise (KeyError key)
  | null => mret None
  | value a => mret (Some a)
  end.

(** What [jsonify] is given. *)
Inductive payload :=
  | StudentList (l : list student)
  | OneStudent (s : option student)
  | Created (id : Z) (message : string)
  | Message (message : string)
  | Stats (s : option statistics)
  | Error (error : string) (status : Z).

Record response := Response {
  status_code : Z;
  content : payload
}.

Definition abort {A} (code : Z) (description : string) : py A :=
  raise (HTTPException code description).

(** [query_db]: one connection, one statement, the rows fetched. *)
Definition query_db {A} (q : stmt) (rows : db → A) : py A :=
  execute_query q rows.

(** The decorator [validate_json( *required_fields)], lines 25-36. *)
Fixpoint check_required (b : body) (required_fields : list string) : py () :=
  match required_fields with
  | [] => mret ()
  | field :: rest =>
      if negb (contains b field)
      then abort 400 ("Missing required field: " +:+ field)
      else check_required b rest
  end.

Definition validate_json (required_fields : list string)
    (f : body → py response) (b : body) : py response :=
  if negb (truthy b) then abort 400 "No JSON data provided"
  else _ ← check_required b required_fields; f b.

(** [GET /api/students], lines 40-53. *)
Definition get_students (min_grade : option Z) : py response :=
  students ← match min_grade with
             | Some m => query_db (SelectByMinGrade m) (select_by_min_grade m)
             | None => query_db SelectAllByName select_all_by_name
             end;
  mret (Response 200 (StudentList students)).

(** [GET /api/students/<id>], lines 55-67. *)
Definition get_student (student_id : Z) : py response :=
  student ← query_db (SelectById student_id) (select_by_id student_id);
  if student is None then abort 404 "Student not found"
  else mret (Response 200 (OneStudent student)).

Definition is_IntegrityError (e : exn) : bool :=
  match e with IntegrityError _ => true | _ => false end.

(** The body of [create_student], lines 71-95. *)
Definition create_student_view (now : string) (data : body) : py response :=
  grade ← getitem "grade" (grade_field data);
  in_range ← match grade with
             | Some g => mret (grade_in_range g)
             | None => raise TypeError
             end;
  if negb in_range then abort 400 grade_message
  else
    try_except
      (name ← getitem "name" (name_field data);
       email ← getitem "email" (email_field data);
       grade ← getitem "grade" (grade_field data);
       student_id ← execute_insert now name email grade;
       mret (Response 201 (Created student_id "Student created successfully")))
      is_IntegrityError
      (abort 400 "Email already exists").

(** [POST /api/students] *)
Definition create_student (now : string) : body → py response :=
  validate_json ["name"; "email"; "grade"] (create_student_view now).

(** The body of [update_student], lines 99-114. *)
Definition update_student_view (student_id : Z) (data : body) : py response :=
  found ← query_db (SelectIdById student_id) (select_id_by_id student_id);
  if found is None then abort 404 "Student not found"
  else
    name ← getitem "name" (name_field data);
    email ← getitem "email" (email_field data);
    grade ← getitem "grade" (grade_field data);
    _ ← execute_update student_id name email grade;
    mret (Response 200 (Message "Student updated successfully")).

(** [PUT /api/students/<id>] *)
Definition update_student (student_id : Z) : body → py response :=
  validate_json ["name"; "email"; "grade"] (update_student_view student_id).

(** [DELETE /api/students/<id>], lines 116-126. *)
Definition delete_student (student_id : Z) : py response :=
  rowcount ← execute_delete student_id;
  if rowcount =? 0 then abort 404 "Student not found"
  else mret (Response 200 (Message "Student deleted successfully")).

(** [GET /api/statistics], lines 128-144. *)
Definition get_statistics : py response :=
  stats ← query_db SelectStatistics (λ d, Some (select_statistics d));
  mret (Response 200 (Stats stats)).

(** The error handler registered for 400 and 404, lines 147-153. *)
Definition handle_error (code : Z) (description : string) : response :=
  Response code (Error description code).

(** What the client gets: the view's response, the handler's answer to an
    [abort], or a server error for any other exception (no handler is
    registered for those). *)
Inductive reply :=
  | Responded (r : response)
  | ServerError (e : exn).

Definition serve (view : py response) (s : session) : reply * session :=
  match view s with
  | (Return r, s') => (Responded r, s')
  | (Raise (HTTPException code description), s') =>
      (Responded (handle_error code description), s')
  | (Raise e, s') => (ServerError e, s')
  end.

End backend.

(** ** [student_manager.py], lines 99-234: printing and the menu *)

Module menu.

(** Code that prints.  The state is the session together with what was
    printed so far, one entry per [print] call, oldest first; what was
    printed stays when an exception is raised.  The prompts of [input] are
    not recorded, and what the user typed enters as a parsed [request].
    Padding counts the bytes of a string, which is what Python counts on
    ASCII text. *)
Definition cli (A : Type) : Type :=
  session * list string → result A * (session * list string).

Global Instance cli_ret : MRet cli := λ A a w, (Return a, w).

Global Instance cli_bind : MBind cli := λ A B f m w,
  match m w with
  | (Return a, w') => f a w'
  | (Raise e, w') => (Raise e, w')
  end.

Definition print (line : string) : cli () :=
  λ w, (Return (), (w.1, (w.2 ++ [line])%list)).

Definition throw {A} (e : exn) : cli A := λ w, (Raise e, w).

(** A call into the repository functions. *)
Definition call {A} (m : py A) : cli A :=
  λ w, let '(r, s') := m w.1 in (r, (s', w.2)).

(** The line feed written [\n] in the source. *)
Definition nl : string := String (Ascii.ascii_of_nat 10) "".

(** ["=" * n] *)
Definition rule (n : nat) : string :=
  String.string_of_list_ascii (replicate n (Ascii.ascii_of_nat 61)).

(** [f"{text:<width}"]: padded with spaces on the right, never cut. *)
Definition ljust (width : nat) (text : string) : string :=
  text +:+ String.string_of_list_ascii (replicate (width - String.length text) (Ascii.ascii_of_nat 32)).

(** [f"{value}"] of a nullable integer. *)
Definition str (value : option Z) : string :=
  match value with Some z => pretty z | None => "None" end.

(** [f"{value:<width}"] of a nullable integer: [None] accepts no format
    specification. *)
Definition format_int (width : nat) (value : option Z) : cli string :=
  match value with
  | Some z => mret (ljust width (pretty z))
  | None => throw TypeError
  end.

(** [print_student], lines 99-109. *)
Definition print_student (student : option student) : cli () :=
  match student with
  | None => print "Student not found"
  | Some st =>
      _ ← print (nl +:+ "ID: " +:+ pretty (id st));
      _ ← print ("Name: " +:+ name st);
      _ ← print ("Email: " +:+ email st);
      _ ← print ("Grade: " +:+ str (grade st));
      print ("Created: " +:+ created_at st)
  end.

(** The loop of [print_students_table], lines 121-122. *)
Fixpoint print_rows (students : list student) : cli () :=
  match students with
  | [] => mret ()
  | st :: rest =>
      grade_text ← format_int 5 (grade st);
      _ ← print (ljust 5 (pretty (id st)) +:+ " " +:+ ljust 20 (name st) +:+ " "
                 +:+ ljust 25 (email st) +:+ " " +:+ grade_text);
      print_rows rest
  end.

(** [print_students_table], lines 112-123. *)
Definition print_students_table (students : list student) : cli () :=
  if decide (students = []) then print (nl +:+ "No students found.")
  else
    _ ← print (nl +:+ rule 70);
    _ ← print (ljust 5 "ID" +:+ " " +:+ ljust 20 "Name" +:+ " "
               +:+ ljust 25 "Email" +:+ " " +:+ ljust 5 "Grade");
    _ ← print (rule 70);
    _ ← print_rows students;
    print (rule 70).

(** Truth value of a float: zero is false. *)
Definition nonzero (q : Q) : bool := negb (Qeq_bool q 0).

(** [print_statistics], lines 126-144.  [fixed2] stands for Python's
    [f"{x:.2f}"] on a float. *)
Definition print_statistics (fixed2 : Q → string) (stats : option statistics)
  : cli () :=
  match stats with
  | None => print "No statistics available"
  | Some st =>
      _ ← print (nl +:+ rule 50);
      _ ← print "GRADE STATISTICS";
      _ ← print (rule 50);
      _ ← print ("Total Students: " +:+ pretty (total_students st));
      _ ← print (match average_grade st with
                 | Some q => if nonzero q then "Average Grade: " +:+ fixed2 q
                             else "Average Grade: N/A"
                 | None => "Average Grade: N/A"
                 end);
      _ ← print ("Highest Grade: " +:+ str (highest_grade st));
      _ ← print ("Lowest Grade: " +:+ str (lowest_grade st));
      _ ← print (nl +:+ "Grade Distribution:");
      _ ← print ("  A (90-100): " +:+ pretty (a_students st));
      _ ← print ("  B (80-89):  " +:+ pretty (b_students st));
      _ ← print ("  C (70-79):  " +:+ pretty (c_students st));
      _ ← print ("  Below 70:   " +:+ pretty (failing_students st));
      print (rule 50)
  end.

(** What was typed for one pass through the menu of [main], choices 1 to
    7, once every prompt that goes through [int(...)] has been read as an
    integer and every other prompt has been stripped.  For the update, an
    empty text and [None] are prompts left blank; for the delete,
    [confirm] is the answer in lower case. *)
Inductive request :=
  | ViewAll
  | ViewStatistics
  | Search (student_id : Z)
  | Filter (min_grade : Z)
  | Add (name email : string) (grade : Z)
  | Change (student_id : Z) (name email : string) (grade : option Z)
  | Remove (student_id : Z) (confirm : string).

(** [update_student] called with whatever [grade] is: on [None] the range
    comparison raises [TypeError]. *)
Definition update_student_dyn (student_id : Z) (name email : string)
    (grade : option Z) : cli bool :=
  match grade with
  | Some g => call (student_manager.update_student student_id name email g)
  | None => throw TypeError
  end.

(** The branches of [main], lines 168-220. *)
Definition branch (fixed2 : Q → string) (now : string) (r : request) : cli () :=
  match r with
  | ViewAll =>
      students ← call student_manager.get_all_students;
      print_students_table students
  | ViewStatistics =>
      stats ← call student_manager.get_statistics;
      print_statistics fixed2 stats
  | Search student_id =>
      student ← call (student_manager.get_student_by_id student_id);
      print_student student
  | Filter min_grade =>
      students ← call (student_manager.filter_students_by_grade min_grade);
      print_students_table students
  | Add name email grade =>
      student_id ← call (student_manager.add_student now name email grade);
      print (nl +:+ "✓ Student added successfully with ID: " +:+ pretty student_id)
  | Change student_id name_input email_input grade_input =>
      student ← call (student_manager.get_student_by_id student_id);
      match student with
      | None => print "Student not found!"
      | Some st =>
          _ ← print_student student;
          let name := if decide (name_input = "") then name st else name_input in
          let email := if decide (email_input = "") then email st else email_input in
          let grade := match grade_input with Some g => Some g | None => grade st end in
          updated ← update_student_dyn student_id name email grade;
          if (updated : bool) then print (nl +:+ "✓ Student updated successfully")
          else print (nl +:+ "✗ Failed to update student")
      end
  | Remove student_id confirm =>
      if decide (confirm = "yes") then
        deleted ← call (student_manager.delete_student student_id);
        if (deleted : bool) then print (nl +:+ "✓ Student deleted successfully")
        else print (nl +:+ "✗ Student not found")
      else print "Delete cancelled"
  end.

(** The [try] around the branches with its three handlers, lines 167 and
    229-234.  [message] stands for [f"{e}"], the text of the exception. *)
Definition one_pass (fixed2 : Q → string) (message : exn → string) (now : string)
    (r : request) : cli () :=
  λ w, match branch fixed2 now r w with
       | (Raise e, w') =>
           match e with
           | ValueError _ => print (nl +:+ "✗ Error: " +:+ message e) w'
           | IntegrityError _ => print (nl +:+ "✗ Database error: " +:+ message e) w'
           | _ => print (nl +:+ "✗ Unexpected error: " +:+ message e) w'
           end
       | finished => finished
       end.

End menu.

(** ** Notions used to state the properties *)

(** A session with nothing sent yet. *)
Definition fresh (d : db) : session := Session d [].

(** The rows of the table in no particular order. *)
Definition all_students (d : db) : list student :=
  student_of <$> map_to_list (students d).

(** In how many of the four statistics buckets a row is counted. *)
Definition buckets_hit (s : student) : nat :=
  Nat.b2n (sql_true (is_a s)) + Nat.b2n (sql_true (is_b s)) +
  Nat.b2n (sql_true (is_c s)) + Nat.b2n (sql_true (is_failing s)).

(** The rows whose grade is NULL. *)
Definition null_grades (l : list student) : list student :=
  filter (λ s, grade s = None) l.

(** The samples entered one by one through the menu's [add_student]. *)
Definition add_all (now : string) (l : list (string * string * Z)) : py () :=
  foldr (λ '(n, e, g) rest, _ ← student_manager.add_student now n e g; rest)
        (mret ()) l.

(** The first required field that the body lacks, in the decorator's order. *)
Definition first_missing (b : backend.body) : option string :=
  find (λ k, negb (backend.contains b k)) ["name"; "email"; "grade"].

(** A body carrying the three fields with values. *)
Definition full_body (n e : string) (g : Z) : backend.body :=
  backend.Body (backend.value n) (backend.value e) (backend.value g) [].

(** One student added through the menu. *)
Definition one_student : db :=
  data (student_manager.add_student "2024-01-01 00:00:00" "Ann" "ann@school.edu" 90
          (fresh empty_db)).2.

(** Two students added through the menu. *)
Definition two_students : db :=
  data (student_manager.add_student "2024-01-02 00:00:00" "Ben" "ben@school.edu" 75
          (fresh one_student)).2.

(** The table after the HTTP update of student 1 with a [null] grade. *)
Definition null_grade_db : db :=
  data (backend.serve
          (backend.update_student 1
             (backend.Body (backend.value "Ann") (backend.value "ann@school.edu")
                backend.null []))
          (fresh one_student)).2.

(** What the constraints of the schema and the id counter maintain: every
    stored id was handed out by the counter, every stored grade passes the
    [CHECK], and no two rows share an email. *)
Definition consistent (d : db) : Prop :=
  0 ≤ seq d ∧
  (∀ k r, students d !! k = Some r → 1 ≤ k ≤ seq d) ∧
  (∀ k r, students d !! k = Some r → check_grade (r_grade r) = true) ∧
  (∀ k1 k2 r1 r2,
     students d !! k1 = Some r1 → students d !! k2 = Some r2 →
     r_email r1 = r_email r2 → k1 = k2).

(** Every stored grade is an integer within [0,100]. *)
Definition graded (d : db) : Prop :=
  ∀ k r, students d !! k = Some r → ∃ g, r_grade r = Some g ∧ 0 ≤ g ≤ 100.

(** A computation never leaves the set [P] of database states. *)
Definition keeps (P : db → Prop) {A} (m : py A) : Prop :=
  ∀ s, P (data s) → P (data (m s).2).

(** Relative to an earlier state [d0]: the counter has not gone back, and
    no id that the counter of [d0] had passed and that [d0] did not hold
    is held now. *)
Definition retired_stay (d0 d : db) : Prop :=
  seq d0 ≤ seq d ∧
  ∀ k, k ≤ seq d0 → students d0 !! k = None → students d !! k = None.


(** One row of the printed table, for a student whose grade is an
    integer. *)
Definition row_text (st : student) : string :=
  menu.ljust 5 (pretty (id st)) +:+ " " +:+ menu.ljust 20 (name st) +:+ " "
  +:+ menu.ljust 25 (email st) +:+ " " +:+ menu.ljust 5 (menu.str (grade st)).

(** The three lines above the rows of the printed table. *)
Definition table_head : list string :=
  [ menu.nl +:+ menu.rule 70;
    menu.ljust 5 "ID" +:+ " " +:+ menu.ljust 20 "Name" +:+ " "
    +:+ menu.ljust 25 "Email" +:+ " " +:+ menu.ljust 5 "Grade";
    menu.rule 70 ].

(** A computation that prints never leaves the set [P] of database
    states. *)
Definition cli_keeps (P : db → Prop) {A} (m : menu.cli A) : Prop :=
  ∀ w, P (data w.1) → P (data (m w).2.1).

(** One student with grade 0, added through the menu. *)
Definition zero_student : db :=
  data (student_manager.add_student "2024-01-01 00:00:00" "Zoe" "zoe@school.edu" 0
          (fresh empty_db)).2.

(** * Properties *)

Arguments engine_insert : simpl never.
Arguments engine_update : simpl never.
Arguments engine_delete : simpl never.
Arguments select_all_by_name : simpl never.
Arguments select_by_min_grade : simpl never.
Arguments select_statistics : simpl never.

(** Unfolds the program down to the engine's statements. *)
Ltac run :=
  unfold backend.serve, backend.create_student, backend.update_student,
    backend.delete_student, backend.validate_json, backend.create_student_view,
    backend.update_student_view, backend.query_db, backend.abort,
    student_manager.add_student, student_manager.update_student,
    student_manager.delete_student, try_except, raise,
    execute_query, execute_insert, execute_update, execute_delete,
    mbind, py_bind, mret, py_ret, log;
  simpl.

(** ** Order relations used by [ORDER BY] *)

Lemma string_leb_trans (s1 s2 s3 : string) :
  String.leb s1 s2 = true → String.leb s2 s3 = true → String.leb s1 s3 = true.
Proof.
  unfold String.leb.
  revert s2 s3. induction s1 as [|a s1 IH]; intros [|b s2] [|c s3]; simpl; try done.
  destruct (Ascii.compare a b) eqn:Hab; try done;
    destruct (Ascii.compare b c) eqn:Hbc; try done; intros H1 H2.
  - apply Ascii.compare_eq_iff in Hab, Hbc. subst.
    rewrite (proj2 (N.compare_eq_iff _ _) eq_refl : Ascii.compare c c = Eq).
    by apply (IH s2 s3).
  - apply Ascii.compare_eq_iff in Hab. subst. by rewrite Hbc.
  - apply Ascii.compare_eq_iff in Hbc. subst. by rewrite Hab.
  - unfold Ascii.compare in *. rewrite N.compare_lt_iff in Hab, Hbc.
    by rewrite (proj2 (N.compare_lt_iff _ _) (N.lt_trans _ _ _ Hab Hbc)).
Qed.

Global Instance by_name_trans : Transitive by_name.
Proof. intros a b c. unfold by_name. apply string_leb_trans. Qed.

Global Instance by_name_total : Total by_name.
Proof. intros a b. unfold by_name. apply String.leb_total. Qed.

Lemma sql_leb_trans (a b c : option Z) :
  sql_leb a b = true → sql_leb b c = true → sql_leb a c = true.
Proof.
  destruct a, b, c; simpl; try done. rewrite !Z.leb_le. lia.
Qed.

Global Instance by_grade_desc_trans : Transitive by_grade_desc.
Proof. intros a b c H1 H2. unfold by_grade_desc in *. by eapply sql_leb_trans. Qed.

Global Instance by_grade_desc_total : Total by_grade_desc.
Proof.
  intros a b. unfold by_grade_desc.
  destruct (grade a), (grade b); simpl; auto. rewrite !Z.leb_le. lia.
Qed.

Global Instance by_id_total : Total by_id.
Proof. intros a b. unfold by_id. lia. Qed.

(** ** The rows a statement reads *)

Lemma scan_all (d : db) : scan d ≡ₚ all_students d.
Proof.
  unfold scan, all_students. apply fmap_Permutation, merge_sort_Permutation.
Qed.

Lemma elem_of_all_students (d : db) (s : student) :
  s ∈ all_students d ↔
  students d !! id s = Some (Row (name s) (email s) (grade s) (created_at s)).
Proof.
  unfold all_students. rewrite list_elem_of_fmap. split.
  - intros [[k r] [-> Hkr]]. apply elem_of_map_to_list in Hkr.
    destruct r; simpl. done.
  - intros H. exists (id s, Row (name s) (email s) (grade s) (created_at s)).
    split; [by destruct s | by apply elem_of_map_to_list].
Qed.

Global Instance student_of_inj : Inj (=) (=) student_of.
Proof.
  intros [k1 [n1 e1 g1 c1]] [k2 [n2 e2 g2 c2]]. unfold student_of; simpl.
  by intros [= -> -> -> -> ->].
Qed.

Lemma NoDup_all_students (d : db) : NoDup (all_students d).
Proof. unfold all_students. apply (NoDup_fmap_2 _), NoDup_map_to_list. Qed.

Lemma NoDup_scan (d : db) : NoDup (scan d).
Proof. rewrite scan_all. apply NoDup_all_students. Qed.

Lemma elem_of_scan (d : db) (s : student) : s ∈ scan d ↔ s ∈ all_students d.
Proof. by rewrite scan_all. Qed.

Lemma grade_at_least_spec (m : Z) (s : student) :
  grade_at_least m s = true ↔ ∃ g, grade s = Some g ∧ m ≤ g.
Proof.
  unfold grade_at_least, sql_ge. destruct (grade s) as [g|]; simpl.
  - destruct (m <=? g) eqn:H; split.
    + intros _. exists g. split; [done | by apply Z.leb_le].
    + done.
    + done.
    + intros (g' & [= <-] & Hle). apply Z.leb_le in Hle. congruence.
  - split; [done | by intros (g & ? & _)].
Qed.

Lemma StronglySorted_refine {A} (R R' : relation A) (P : A → Prop) (l : list A) :
  (∀ a b, P a → P b → R a b → R' a b) →
  Forall P l → StronglySorted R l → StronglySorted R' l.
Proof.
  intros HR HP HS. induction HS as [|a l HS IH Hal]; [constructor |].
  apply Forall_cons in HP as [Ha Hl]. constructor; [by apply IH |].
  clear IH HS. induction Hal as [|b l Hab Hal IH]; [constructor |].
  apply Forall_cons in Hl as [Hb Hl]. constructor; [by apply HR | by apply IH].
Qed.

Lemma select_all_by_name_spec (d : db) :
  select_all_by_name d ≡ₚ all_students d ∧
  StronglySorted (λ a b, String.leb (name a) (name b) = true) (select_all_by_name d).
Proof.
  unfold select_all_by_name. split.
  - by rewrite merge_sort_Permutation, scan_all.
  - apply (StronglySorted_merge_sort by_name).
Qed.

Lemma select_by_min_grade_spec (m : Z) (d : db) :
  let l := select_by_min_grade m d in
  NoDup l ∧
  (∀ s, s ∈ l ↔ s ∈ all_students d ∧ ∃ g, grade s = Some g ∧ m ≤ g) ∧
  StronglySorted (λ a b, ∃ x y, grade a = Some x ∧ grade b = Some y ∧ y ≤ x) l.
Proof.
  unfold select_by_min_grade. simpl.
  set (f := filter (λ s, grade_at_least m s) (scan d)).
  assert (Hmem : ∀ s, s ∈ f ↔ s ∈ all_students d ∧ ∃ g, grade s = Some g ∧ m ≤ g).
  { intros s. unfold f. rewrite list_elem_of_filter, elem_of_scan.
    rewrite <- grade_at_least_spec. rewrite Is_true_true. tauto. }
  split; [| split].
  - rewrite merge_sort_Permutation. apply NoDup_filter, NoDup_scan.
  - intros s. by rewrite merge_sort_Permutation.
  - apply (StronglySorted_refine by_grade_desc _ (λ s, ∃ g, grade s = Some g)).
    + intros a b [x Hx] [y Hy] Hab. unfold by_grade_desc in Hab.
      rewrite Hx, Hy in Hab. simpl in Hab. apply Z.leb_le in Hab. eauto.
    + apply Forall_forall. intros s Hs.
      rewrite merge_sort_Permutation in Hs. apply Hmem in Hs as (_ & g & Hg & _). eauto.
    + apply (StronglySorted_merge_sort by_grade_desc).
Qed.

(** C3: for every database state, listing without a minimum grade returns
    all students ordered by name ascending; listing with a minimum grade
    returns exactly the students whose grade is at least that minimum,
    ordered by grade descending; both the menu functions and the HTTP
    handler always return a sequence, which is empty exactly when no
    student qualifies, and leave the table unchanged. *)
Theorem C3_list_students (s : session) (m : Z) :
  (∃ l,
     student_manager.get_all_students s
       = (Return l, Session (data s) (sent s ++ [SelectAllByName])) ∧
     backend.serve (backend.get_students None) s
       = (backend.Responded (backend.Response 200 (backend.StudentList l)),
          Session (data s) (sent s ++ [SelectAllByName])) ∧
     l ≡ₚ all_students (data s) ∧
     StronglySorted (λ a b, String.leb (name a) (name b) = true) l ∧
     (l = [] ↔ students (data s) = ∅)) ∧
  (∃ l,
     student_manager.filter_students_by_grade m s
       = (Return l, Session (data s) (sent s ++ [SelectByMinGrade m])) ∧
     backend.serve (backend.get_students (Some m)) s
       = (backend.Responded (backend.Response 200 (backend.StudentList l)),
          Session (data s) (sent s ++ [SelectByMinGrade m])) ∧
     NoDup l ∧
     (∀ x, x ∈ l ↔ x ∈ all_students (data s) ∧ ∃ g, grade x = Some g ∧ m ≤ g) ∧
     StronglySorted (λ a b, ∃ x y, grade a = Some x ∧ grade b = Some y ∧ y ≤ x) l ∧
     (l = [] ↔ ∀ x g, x ∈ all_students (data s) → grade x = Some g → g < m)).
Proof.
  split.
  - exists (select_all_by_name (data s)).
    destruct (select_all_by_name_spec (data s)) as [Hp Hs].
    repeat split; try done.
    + intros Hnil. rewrite Hnil in Hp. symmetry in Hp.
      apply Permutation_nil_r in Hp. unfold all_students in Hp.
      apply fmap_nil_inv in Hp. by apply map_to_list_empty_iff in Hp.
    + intros Hemp. apply Permutation_nil_r. rewrite Hp.
      unfold all_students. by rewrite Hemp, map_to_list_empty.
  - exists (select_by_min_grade m (data s)).
    destruct (select_by_min_grade_spec m (data s)) as (Hnd & Hmem & Hs).
    repeat split; try done.
    + by apply Hmem.
    + by apply Hmem.
    + by apply Hmem.
    + intros Hnil x g Hx Hg. destruct (decide (g < m)) as [|Hge]; [done |].
      assert (x ∈ select_by_min_grade m (data s)) as Hin.
      { apply Hmem. split; [done |]. exists g. split; [done | lia]. }
      rewrite Hnil in Hin. by apply elem_of_nil in Hin.
    + intros Hall. destruct (select_by_min_grade m (data s)) as [|x l] eqn:E; [done |].
      assert (x ∈ x :: l) as Hin by left.
      apply Hmem in Hin as (Hx & g & Hg & Hle). specialize (Hall x g Hx Hg). lia.
Qed.

(** ** Statistics *)

Lemma buckets_hit_grade (s : student) :
  buckets_hit s = if grade s is Some _ then 1%nat else 0%nat.
Proof.
  unfold buckets_hit, is_a, is_b, is_c, is_failing, sql_ge, sql_lt.
  destruct (grade s) as [g|]; simpl; [| done].
  destruct (90 <=? g) eqn:H90; destruct (80 <=? g) eqn:H80;
    destruct (70 <=? g) eqn:H70; destruct (g <? 90) eqn:L90;
    destruct (g <? 80) eqn:L80; destruct (g <? 70) eqn:L70; simpl; try done;
    rewrite ?Z.leb_le, ?Z.leb_gt, ?Z.ltb_lt, ?Z.ltb_ge in *; lia.
Qed.

Lemma count_when_cons (c : student → option bool) (x : student) (l : list student) :
  count_when c (x :: l) = Z.of_nat (Nat.b2n (sql_true (c x))) + count_when c l.
Proof.
  unfold count_when. rewrite filter_cons.
  destruct (sql_true (c x)); simpl length; simpl Nat.b2n; lia.
Qed.

Lemma count_when_perm (c : student → option bool) (l1 l2 : list student) :
  l1 ≡ₚ l2 → count_when c l1 = count_when c l2.
Proof. intros H. unfold count_when. by rewrite H. Qed.

Lemma bucket_counts_sum (l : list student) :
  count_when is_a l + count_when is_b l + count_when is_c l + count_when is_failing l
  = Z.of_nat (length l) - Z.of_nat (length (null_grades l)).
Proof.
  induction l as [|x l IH]; [done |].
  rewrite !count_when_cons. unfold null_grades in *. rewrite filter_cons.
  pose proof (buckets_hit_grade x) as Hx. unfold buckets_hit in Hx.
  case_decide as Hg; rewrite Hg in Hx || (destruct (grade x); [| done]);
    simpl length; lia.
Qed.

Lemma length_scan (d : db) : length (scan d) = size (students d).
Proof.
  unfold scan. rewrite length_fmap, merge_sort_Permutation. apply length_map_to_list.
Qed.

Lemma null_grades_perm (l1 l2 : list student) :
  l1 ≡ₚ l2 → length (null_grades l1) = length (null_grades l2).
Proof. intros H. unfold null_grades. by rewrite H. Qed.

Lemma null_grades_nil (l : list student) :
  (∀ x, x ∈ l → is_Some (grade x)) → null_grades l = [].
Proof.
  intros H. unfold null_grades. induction l as [|x l IH]; [done |].
  rewrite filter_cons. rewrite decide_False.
  - apply IH. intros y Hy. apply H. by right.
  - destruct (H x) as [g Hg]; [by left |]. congruence.
Qed.

(** C4 (amended): for every database state the statistics of the menu and
    of the HTTP handler coincide; no row is counted in more than one of
    the four buckets; a row is counted in exactly one bucket when its
    grade is not NULL and in none when it is NULL; the four counts sum to
    [total_students] minus the number of NULL grades, hence exactly to
    [total_students] when every stored grade is an integer. *)
Theorem C4_bucket_counts (s : session) :
  ∃ st,
    student_manager.get_statistics s
      = (Return (Some st), Session (data s) (sent s ++ [SelectStatistics])) ∧
    backend.serve backend.get_statistics s
      = (backend.Responded (backend.Response 200 (backend.Stats (Some st))),
         Session (data s) (sent s ++ [SelectStatistics])) ∧
    total_students st = Z.of_nat (size (students (data s))) ∧
    a_students st = count_when is_a (all_students (data s)) ∧
    b_students st = count_when is_b (all_students (data s)) ∧
    c_students st = count_when is_c (all_students (data s)) ∧
    failing_students st = count_when is_failing (all_students (data s)) ∧
    (∀ x, (buckets_hit x ≤ 1)%nat ∧ (buckets_hit x = 1%nat ↔ is_Some (grade x))) ∧
    a_students st + b_students st + c_students st + failing_students st
      = total_students st - Z.of_nat (length (null_grades (all_students (data s)))) ∧
    ((∀ x, x ∈ all_students (data s) → is_Some (grade x)) →
     a_students st + b_students st + c_students st + failing_students st
       = total_students st).
Proof.
  exists (select_statistics (data s)).
  assert (Hsum : a_students (select_statistics (data s)) +
                 b_students (select_statistics (data s)) +
                 c_students (select_statistics (data s)) +
                 failing_students (select_statistics (data s))
                 = total_students (select_statistics (data s)) -
                   Z.of_nat (length (null_grades (all_students (data s))))).
  { simpl. rewrite bucket_counts_sum. unfold count_star.
    by rewrite (null_grades_perm _ _ (scan_all (data s))). }
  split; [done |]. split; [done |].
  split; [simpl; unfold count_star; by rewrite length_scan |].
  split; [apply count_when_perm, scan_all |].
  split; [apply count_when_perm, scan_all |].
  split; [apply count_when_perm, scan_all |].
  split; [apply count_when_perm, scan_all |].
  split; [| split; [done |]].
  - intros x. rewrite buckets_hit_grade. destruct (grade x); split; try lia.
    + split; [eauto | done].
    + split; [done | by intros [? ?]].
  - intros Hall. rewrite Hsum, (null_grades_nil _ Hall). simpl. lia.
Qed.

(** C4, as stated, fails: after the HTTP update of student 1 with a
    [null] grade the table has one row, which is counted in no bucket, so
    the four counts sum to 0 while [total_students] is 1. *)
Lemma C4_counterexample :
  let x := Student 1 "Ann" "ann@school.edu" None "2024-01-01 00:00:00" in
  let st := Statistics 1 None None None 0 0 0 0 in
  all_students null_grade_db = [x] ∧
  buckets_hit x = 0%nat ∧
  student_manager.get_statistics (fresh null_grade_db)
    = (Return (Some st), Session null_grade_db [SelectStatistics]) ∧
  a_students st + b_students st + c_students st + failing_students st
    ≠ total_students st.
Proof. by vm_compute. Qed.

(** C7: starting from an empty table, after [init_db.py] has inserted its
    five samples (grades 92, 78, 85, 95, 88), and equally after the five
    are entered through [add_student], the statistics are total 5,
    average 87.6, highest 95, lowest 78, two A, two B, one C, none
    failing. *)
Theorem C7_sample_statistics (now : string) :
  ∃ avg,
    Qeq avg 87.6 ∧
    student_manager.get_statistics (fresh (init_db.run now None))
      = (Return (Some (Statistics 5 (Some avg) (Some 95) (Some 78) 2 2 1 0)),
         Session (init_db.run now None) [SelectStatistics]) ∧
    (add_all now init_db.sample_students (fresh empty_db)).1 = Return () ∧
    data (add_all now init_db.sample_students (fresh empty_db)).2
      = init_db.run now None ∧
    grade <$> scan (init_db.run now None)
      = [Some 92; Some 78; Some 85; Some 95; Some 88].
Proof.
  exists (438 # 5)%Q. split; [done |].
  split; [by vm_compute |]. split; [by vm_compute |]. split; by vm_compute.
Qed.

(** C9: on an empty table the statistics of the menu and of the HTTP
    handler have [total_students] 0, the four bucket counts 0, and NULL
    for the average, the highest and the lowest grade; the call does not
    fail. *)
Theorem C9_empty_statistics (n : Z) (sent0 : list stmt) :
  let s := Session (Db ∅ n) sent0 in
  let st := Statistics 0 None None None 0 0 0 0 in
  student_manager.get_statistics s
    = (Return (Some st), Session (Db ∅ n) (sent0 ++ [SelectStatistics])) ∧
  backend.serve backend.get_statistics s
    = (backend.Responded (backend.Response 200 (backend.Stats (Some st))),
       Session (Db ∅ n) (sent0 ++ [SelectStatistics])).
Proof. done. Qed.

(** ** Constraints *)

Lemma email_taken_spec (t : gmap Z row) (self : option Z) (e : string) :
  email_taken t self e = true ↔
  ∃ k r, t !! k = Some r ∧ Some k ≠ self ∧ r_email r = e.
Proof. unfold email_taken. simpl. by rewrite bool_decide_eq_true. Qed.

Lemma email_taken_by (t : gmap Z row) (self : option Z) (k : Z) (r : row) :
  t !! k = Some r → Some k ≠ self → email_taken t self (r_email r) = true.
Proof. intros Hk Hne. apply email_taken_spec. eauto. Qed.

Lemma check_grade_Some (g : Z) : check_grade (Some g) = grade_in_range g.
Proof.
  unfold check_grade, grade_in_range. simpl.
  by destruct (0 <=? g), (g <=? 100).
Qed.

Lemma checked_row_in_range (n e : string) (g : Z) (ts : string) :
  grade_in_range g = true →
  checked_row (Some n) (Some e) (Some g) ts = inr (Row n e (Some g) ts).
Proof. intros H. unfold checked_row. rewrite check_grade_Some, H. done. Qed.

Lemma checked_row_out_of_range (n e : string) (g : Z) (ts : string) :
  grade_in_range g = false →
  checked_row (Some n) (Some e) (Some g) ts = inl Check_grade.
Proof. intros H. unfold checked_row. rewrite check_grade_Some, H. done. Qed.

(** What the [UPDATE] does, case by case. *)
Lemma engine_update_absent i n e g d :
  students d !! i = None → engine_update i n e g d = (inr 0, d).
Proof. intros H. unfold engine_update. by rewrite H. Qed.

Lemma engine_update_check i n e g d old :
  students d !! i = Some old → grade_in_range g = false →
  engine_update i (Some n) (Some e) (Some g) d = (inl Check_grade, d).
Proof.
  intros H Hg. unfold engine_update. rewrite H.
  by rewrite checked_row_out_of_range.
Qed.

Lemma engine_update_unique i n e g d old :
  students d !! i = Some old → check_grade g = true →
  email_taken (students d) (Some i) e = true →
  engine_update i (Some n) (Some e) g d = (inl (Unique email_col), d).
Proof.
  intros H Hg He. unfold engine_update, checked_row. rewrite H. simpl.
  rewrite Hg. simpl. by rewrite He.
Qed.

Lemma engine_update_ok i n e g d old :
  students d !! i = Some old → check_grade g = true →
  email_taken (students d) (Some i) e = false →
  engine_update i (Some n) (Some e) g d
  = (inr 1, Db (<[i := Row n e g (r_created_at old)]> (students d)) (seq d)).
Proof.
  intros H Hg He. unfold engine_update, checked_row. rewrite H. simpl.
  rewrite Hg. simpl. by rewrite He.
Qed.

(** What the [INSERT] does, case by case. *)
Lemma engine_insert_check now n e g d :
  grade_in_range g = false →
  engine_insert now (Some n) (Some e) (Some g) d = (inl Check_grade, d).
Proof.
  intros Hg. unfold engine_insert. by rewrite checked_row_out_of_range.
Qed.

Lemma engine_insert_unique now n e g d :
  check_grade g = true → email_taken (students d) None e = true →
  engine_insert now (Some n) (Some e) g d = (inl (Unique email_col), d).
Proof.
  intros Hg He. unfold engine_insert, checked_row. simpl. rewrite Hg. simpl.
  by rewrite He.
Qed.

Lemma engine_insert_ok now n e g d :
  check_grade g = true → email_taken (students d) None e = false →
  engine_insert now (Some n) (Some e) g d
  = (inr (next_rowid d), Db (<[next_rowid d := Row n e g now]> (students d)) (next_rowid d)).
Proof.
  intros Hg He. unfold engine_insert, checked_row. simpl. rewrite Hg. simpl.
  by rewrite He.
Qed.

(** A statement that violates a constraint changes nothing. *)
Lemma engine_insert_violation now n e g d c d' :
  engine_insert now n e g d = (inl c, d') → d' = d.
Proof.
  unfold engine_insert. destruct (checked_row n e g now); [by intros [= _ ->] |].
  destruct (email_taken _ _ _); by intros [= <-].
Qed.

Lemma engine_update_violation i n e g d c d' :
  engine_update i n e g d = (inl c, d') → d' = d.
Proof.
  unfold engine_update. destruct (students d !! i); [| by intros [= <-]].
  destruct (checked_row n e g _); [by intros [= _ ->] |].
  destruct (email_taken _ _ _); by intros [= <-].
Qed.

(** ** Grade validation *)

Lemma add_student_invalid_grade now n e g (s : session) :
  grade_in_range g = false →
  student_manager.add_student now n e g s = (Raise (ValueError grade_message), s).
Proof. intros H. unfold student_manager.add_student. by rewrite H. Qed.

Lemma update_student_invalid_grade i n e g (s : session) :
  grade_in_range g = false →
  student_manager.update_student i n e g s = (Raise (ValueError grade_message), s).
Proof. intros H. unfold student_manager.update_student. by rewrite H. Qed.

Lemma create_student_invalid_grade now n e g others (s : session) :
  grade_in_range g = false →
  backend.serve
    (backend.create_student now
       (backend.Body (backend.value n) (backend.value e) (backend.value g) others)) s
  = (backend.Responded (backend.Response 400 (backend.Error grade_message 400)), s).
Proof.
  intros H. run. by rewrite H.
Qed.

(** C1 holds on three of the four paths (the three lemmas above) and fails
    on the HTTP update: for every stored id and every integer grade outside
    [0,100], [PUT] with the three fields sends the [SELECT] and the
    [UPDATE]; the engine's [CHECK] rejects the write, the table is
    unchanged, and the [IntegrityError] is not caught, so the client gets a
    server error in place of the 400 of the grade validation. *)
Theorem C1_http_update_grade_not_validated
    (s : session) (i : Z) (old : row) (n e : string) (g : Z) (others : list string) :
  students (data s) !! i = Some old →
  grade_in_range g = false →
  backend.serve
    (backend.update_student i
       (backend.Body (backend.value n) (backend.value e) (backend.value g) others)) s
  = (backend.ServerError (IntegrityError Check_grade),
     Session (data s)
       (sent s ++ [SelectIdById i] ++ [Update i (Some n) (Some e) (Some g)])).
Proof.
  intros Hi Hg. run. unfold select_id_by_id. rewrite Hi. simpl.
  rewrite (engine_update_check _ _ _ _ _ old) by done. by rewrite <- app_assoc.
Qed.

Lemma C1_http_update_grade_not_validated_witness :
  students one_student !! 1
    = Some (Row "Ann" "ann@school.edu" (Some 90) "2024-01-01 00:00:00") ∧
  grade_in_range 150 = false ∧
  backend.serve (backend.update_student 1 (full_body "Ann" "ann@school.edu" 150))
    (fresh one_student)
  = (backend.ServerError (IntegrityError Check_grade),
     Session one_student
       [SelectIdById 1; Update 1 (Some "Ann") (Some "ann@school.edu") (Some 150)]).
Proof.
  split; [by vm_compute |]. split; [reflexivity |].
  apply (C1_http_update_grade_not_validated (fresh one_student) 1
           (Row "Ann" "ann@school.edu" (Some 90) "2024-01-01 00:00:00")).
  - by vm_compute.
  - reflexivity.
Defined.

(** ** Duplicate email *)

Lemma create_student_duplicate_email now n e g others (s : session) :
  grade_in_range g = true →
  email_taken (students (data s)) None e = true →
  backend.serve
    (backend.create_student now
       (backend.Body (backend.value n) (backend.value e) (backend.value g) others)) s
  = (backend.Responded (backend.Response 400 (backend.Error "Email already exists" 400)),
     Session (data s) (sent s ++ [Insert (Some n) (Some e) (Some g)])).
Proof.
  intros Hg He. run. rewrite Hg. simpl.
  rewrite engine_insert_unique; [done | by rewrite check_grade_Some | done].
Qed.

(** C2 holds for the HTTP create when the grade is within range (the lemma
    above) and fails for the HTTP update: for every stored id, every grade
    within [0,100] and every email that belongs to another stored student,
    [PUT] with the three fields first sends a [SELECT], then the [UPDATE];
    the engine's [UNIQUE] rejects the write, the table is unchanged, and
    the [IntegrityError] is not caught, so the client gets a server error
    in place of the 400 that the create path gives. *)
Theorem C2_http_update_duplicate_email_not_caught
    (s : session) (i k : Z) (old r : row) (n : string) (g : Z) (others : list string) :
  students (data s) !! i = Some old →
  students (data s) !! k = Some r →
  k ≠ i →
  grade_in_range g = true →
  backend.serve
    (backend.update_student i
       (backend.Body (backend.value n) (backend.value (r_email r)) (backend.value g)
          others)) s
  = (backend.ServerError (IntegrityError (Unique email_col)),
     Session (data s)
       (sent s ++ [SelectIdById i] ++ [Update i (Some n) (Some (r_email r)) (Some g)])).
Proof.
  intros Hi Hk Hne Hg. run. unfold select_id_by_id. rewrite Hi. simpl.
  rewrite (engine_update_unique _ _ _ _ _ old); try done.
  - by rewrite <- app_assoc.
  - by rewrite check_grade_Some.
  - apply (email_taken_by _ _ k); [done | congruence].
Qed.

Lemma C2_http_update_duplicate_email_not_caught_witness :
  students two_students !! 2
    = Some (Row "Ben" "ben@school.edu" (Some 75) "2024-01-02 00:00:00") ∧
  students two_students !! 1
    = Some (Row "Ann" "ann@school.edu" (Some 90) "2024-01-01 00:00:00") ∧
  1 ≠ 2 ∧
  grade_in_range 75 = true ∧
  backend.serve (backend.update_student 2 (full_body "Ben" "ann@school.edu" 75))
    (fresh two_students)
  = (backend.ServerError (IntegrityError (Unique email_col)),
     Session two_students
       [SelectIdById 2; Update 2 (Some "Ben") (Some "ann@school.edu") (Some 75)]).
Proof.
  split; [by vm_compute |]. split; [by vm_compute |].
  split; [done |]. split; [reflexivity |].
  apply (C2_http_update_duplicate_email_not_caught (fresh two_students) 2 1
           (Row "Ben" "ben@school.edu" (Some 75) "2024-01-02 00:00:00")
           (Row "Ann" "ann@school.edu" (Some 90) "2024-01-01 00:00:00")).
  - by vm_compute.
  - by vm_compute.
  - done.
  - reflexivity.
Defined.

(** ** Update *)

Lemma db_eta (d : db) : Db (students d) (seq d) = d.
Proof. by destruct d. Qed.

Lemma engine_update_cases i n e g d :
  (students d !! i = None ∧ engine_update i n e g d = (inr 0, d)) ∨
  (∃ old c, students d !! i = Some old ∧ engine_update i n e g d = (inl c, d)) ∨
  (∃ old n' e',
     students d !! i = Some old ∧ n = Some n' ∧ e = Some e' ∧
     check_grade g = true ∧ email_taken (students d) (Some i) e' = false ∧
     engine_update i n e g d
     = (inr 1, Db (<[i := Row n' e' g (r_created_at old)]> (students d)) (seq d))).
Proof.
  unfold engine_update, checked_row.
  destruct (students d !! i) as [old|] eqn:Hi; [| by left].
  right. destruct n as [n'|]; [| left; eauto].
  destruct e as [e'|]; [| left; eauto]. simpl.
  destruct (check_grade g) eqn:Hg; simpl; [| left; eauto].
  destruct (email_taken _ _ _) eqn:He; [left; eauto |].
  right. exists old, n', e'. eauto 10.
Qed.



Lemma http_update_ok (s : session) (i : Z) (old : row) (n e : string)
    (g : option Z) (others : list string) :
  students (data s) !! i = Some old →
  check_grade g = true →
  email_taken (students (data s)) (Some i) e = false →
  backend.serve
    (backend.update_student i
       (backend.Body (backend.value n) (backend.value e)
          (from_option backend.value backend.null g) others)) s
  = (backend.Responded
       (backend.Response 200 (backend.Message "Student updated successfully")),
     Session (Db (<[i := Row n e g (r_created_at old)]> (students (data s)))
                 (seq (data s)))
       (sent s ++ [SelectIdById i] ++ [Update i (Some n) (Some e) g])).
Proof.
  intros Hi Hg He. destruct g as [g|]; run; unfold select_id_by_id;
    rewrite Hi; simpl; rewrite (engine_update_ok _ _ _ _ _ old) by done;
    by rewrite <- app_assoc.
Qed.



(** ** Delete *)

Lemma engine_delete_spec (i : Z) (d : db) :
  engine_delete i d
  = (if bool_decide (is_Some (students d !! i)) then 1 else 0,
     Db (delete i (students d)) (seq d)).
Proof.
  unfold engine_delete. destruct (students d !! i) eqn:H.
  - by rewrite bool_decide_eq_true_2.
  - rewrite bool_decide_eq_false_2 by (by intros [? ?]).
    by rewrite delete_id, db_eta.
Qed.

(** C6 (amended): [delete] removes the row with the given id and no
    other.  The menu's [delete_student] returns whether a row was removed;
    on an id that is absent, or was deleted before, it returns [False]
    without an error and the table is unchanged.  The HTTP handler answers
    200 when a row was removed and the error 404 "Student not found" when
    none was, the table being unchanged in that case. *)
Theorem C6_delete (s : session) (i : Z) :
  let found := bool_decide (is_Some (students (data s) !! i)) in
  let after :=
    Session (Db (delete i (students (data s))) (seq (data s))) (sent s ++ [Delete i]) in
  student_manager.delete_student i s = (Return found, after) ∧
  backend.serve (backend.delete_student i) s
    = (backend.Responded
         (if found
          then backend.Response 200 (backend.Message "Student deleted successfully")
          else backend.Response 404 (backend.Error "Student not found" 404)),
       after) ∧
  students (data after) !! i = None ∧
  (∀ k, k ≠ i → students (data after) !! k = students (data s) !! k) ∧
  (found = false → data after = data s) ∧
  student_manager.delete_student i after
    = (Return false, Session (data after) (sent after ++ [Delete i])) ∧
  backend.serve (backend.delete_student i) after
    = (backend.Responded (backend.Response 404 (backend.Error "Student not found" 404)),
       Session (data after) (sent after ++ [Delete i])).
Proof.
  simpl. run. rewrite !engine_delete_spec. simpl.
  rewrite lookup_delete_eq.
  rewrite (bool_decide_eq_false_2 (is_Some None)) by (by intros [? ?]).
  rewrite delete_delete_eq. simpl.
  destruct (bool_decide (is_Some (students (data s) !! i))) eqn:F; simpl;
    repeat split; try done; try (intros k Hk; by rewrite lookup_delete_ne).
  apply bool_decide_eq_false in F.
  rewrite delete_id, db_eta; [done |]. by apply eq_None_not_Some.
Qed.

(** C6, as stated, fails on the HTTP path: deleting an id that never
    existed is answered with the error 404 "Student not found". *)
Lemma C6_counterexample :
  students empty_db !! 1 = None ∧
  backend.serve (backend.delete_student 1) (fresh empty_db)
  = (backend.Responded (backend.Response 404 (backend.Error "Student not found" 404)),
     Session empty_db [Delete 1]).
Proof. by vm_compute. Qed.

(** ** Required fields *)

(** C8 (amended): for every create request that lacks one of the fields
    name, email, grade, the handler answers 400 and sends no statement.
    When the body is an empty object the message is "No JSON data
    provided"; otherwise it is "Missing required field: " followed by the
    first absent field in the order name, email, grade. *)
Theorem C8_missing_field (now : string) (b : backend.body) (k : string) (s : session) :
  k ∈ ["name"; "email"; "grade"] →
  backend.contains b k = false →
  ∃ f,
    first_missing b = Some f ∧
    f ∈ ["name"; "email"; "grade"] ∧
    backend.contains b f = false ∧
    backend.serve (backend.create_student now b) s
    = (backend.Responded
         (backend.Response 400
            (backend.Error
               (if backend.truthy b then "Missing required field: " +:+ f
                else "No JSON data provided") 400)),
       s).
Proof.
  intros Hk Hc. rewrite !elem_of_cons, elem_of_nil in Hk.
  destruct b as [fn fe fg others].
  assert (Hcases : fn = backend.absent ∨ fe = backend.absent ∨ fg = backend.absent).
  { destruct Hk as [-> | [-> | [-> | []]]];
      unfold backend.contains in Hc; simpl in Hc;
      [destruct fn | destruct fe | destruct fg]; auto; done. }
  clear Hk Hc k.
  destruct fn as [| |n]; [exists "name" | |]; cycle 1.
  1,2: destruct fe as [| |e]; [exists "email" | |]; cycle 1.
  1,2,4,5: destruct fg as [| |g]; [exists "grade" | |]; cycle 1.
  all: try (exfalso; by destruct Hcases as [? | [? | ?]]).
  all: destruct others as [|o os]; run; unfold first_missing; simpl;
    repeat split; try done; rewrite ?elem_of_cons; auto.
  all: by destruct (backend.truthy _).
Qed.

Lemma C8_missing_field_witness :
  "email" ∈ ["name"; "email"; "grade"] ∧
  backend.contains
    (backend.Body (backend.value "Ann") backend.absent (backend.value 90) []) "email"
    = false ∧
  ∃ f,
    first_missing (backend.Body (backend.value "Ann") backend.absent (backend.value 90) [])
      = Some f ∧
    f ∈ ["name"; "email"; "grade"] ∧
    backend.contains
      (backend.Body (backend.value "Ann") backend.absent (backend.value 90) []) f
      = false ∧
    backend.serve
      (backend.create_student "2024-01-01 00:00:00"
         (backend.Body (backend.value "Ann") backend.absent (backend.value 90) []))
      (fresh empty_db)
    = (backend.Responded
         (backend.Response 400
            (backend.Error
               (if backend.truthy
                     (backend.Body (backend.value "Ann") backend.absent
                        (backend.value 90) [])
                then "Missing required field: " +:+ f
                else "No JSON data provided") 400)),
       fresh empty_db).
Proof.
  split; [rewrite !elem_of_cons; auto |]. split; [reflexivity |].
  apply (C8_missing_field "2024-01-01 00:00:00"
           (backend.Body (backend.value "Ann") backend.absent (backend.value 90) [])
           "email" (fresh empty_db)).
  - rewrite !elem_of_cons; auto.
  - reflexivity.
Defined.

(** C8, as stated, fails: a create request whose body is the empty object
    lacks name, email and grade, and the error it gets names none of
    them. *)
Lemma C8_counterexample :
  backend.contains (backend.Body backend.absent backend.absent backend.absent []) "name"
    = false ∧
  backend.serve
    (backend.create_student "2024-01-01 00:00:00"
       (backend.Body backend.absent backend.absent backend.absent []))
    (fresh empty_db)
  = (backend.Responded (backend.Response 400 (backend.Error "No JSON data provided" 400)),
     fresh empty_db) ∧
  Forall (λ f, "No JSON data provided" ≠ "Missing required field: " +:+ f)
    ["name"; "email"; "grade"].
Proof.
  split; [reflexivity |]. split; [reflexivity |].
  repeat constructor; by vm_compute.
Qed.

(** ** What the schema alone admits *)

Lemma foldr_max_ge (l : list Z) (k : Z) : k ∈ l → k ≤ foldr Z.max 0 l.
Proof.
  induction l as [|x l IH]; [by intros ?%elem_of_nil |].
  intros [-> | H]%elem_of_cons; simpl; [lia |]. specialize (IH H). lia.
Qed.

Lemma max_rowid_ge (t : gmap Z row) (k : Z) (r : row) :
  t !! k = Some r → k ≤ max_rowid t.
Proof.
  intros H. apply foldr_max_ge. apply list_elem_of_fmap.
  exists (k, r). split; [done | by apply elem_of_map_to_list].
Qed.

(** The id that [AUTOINCREMENT] hands out is not in the table. *)
Lemma next_rowid_fresh (d : db) : students d !! next_rowid d = None.
Proof.
  destruct (students d !! next_rowid d) as [r|] eqn:H; [| done].
  apply max_rowid_ge in H. unfold next_rowid in H. lia.
Qed.

Lemma scan_insert (t : gmap Z row) (q : Z) (k : Z) (r : row) :
  t !! k = None →
  scan (Db (<[k := r]> t) q) ≡ₚ student_of (k, r) :: scan (Db t q).
Proof.
  intros H. rewrite !scan_all. unfold all_students. simpl.
  by rewrite map_to_list_insert.
Qed.

(** C10: the schema does not declare [grade] [NOT NULL] and its [CHECK]
    passes on NULL, so the engine accepts an [INSERT] with a NULL grade
    whenever the email is new: the row is stored under a new id, it raises
    [total_students] by one and is counted in none of the four buckets. *)
Theorem C10_null_grade_accepted (d : db) (now n e : string) :
  email_taken (students d) None e = false →
  grade_col ∈ students_schema ∧
  col_not_null grade_col = false ∧
  check_grade None = true ∧
  let k := next_rowid d in
  let d' := Db (<[k := Row n e None now]> (students d)) k in
  let st := select_statistics d in
  let st' := select_statistics d' in
  students d !! k = None ∧
  engine_insert now (Some n) (Some e) None d = (inr k, d') ∧
  Student k n e None now ∈ all_students d' ∧
  buckets_hit (Student k n e None now) = 0%nat ∧
  total_students st' = total_students st + 1 ∧
  a_students st' = a_students st ∧
  b_students st' = b_students st ∧
  c_students st' = c_students st ∧
  failing_students st' = failing_students st.
Proof.
  intros He. split; [unfold students_schema; rewrite !elem_of_cons; auto 10 |].
  split; [done |]. split; [done |]. simpl.
  pose proof (next_rowid_fresh d) as Hfresh.
  pose proof (scan_insert (students d) (next_rowid d) (next_rowid d)
                (Row n e None now) Hfresh) as Hscan.
  assert (Hsame : ∀ q, scan (Db (students d) q) = scan d) by done.
  rewrite Hsame in Hscan. unfold select_statistics. simpl.
  split; [done |]. split; [by apply engine_insert_ok |].
  split; [apply elem_of_all_students; simpl; by rewrite lookup_insert_eq |].
  split; [done |].
  unfold count_star. rewrite !(count_when_perm _ _ _ Hscan), !count_when_cons.
  rewrite (Permutation_length Hscan). simpl.
  repeat split; lia.
Qed.

Lemma C10_null_grade_accepted_witness :
  email_taken (students one_student) None "zed@school.edu" = false ∧
  engine_insert "2024-01-03 00:00:00" (Some "Zed") (Some "zed@school.edu") None one_student
  = (inr 2,
     Db (<[2 := Row "Zed" "zed@school.edu" None "2024-01-03 00:00:00"]>
           (students one_student)) 2) ∧
  total_students
    (select_statistics
       (Db (<[2 := Row "Zed" "zed@school.edu" None "2024-01-03 00:00:00"]>
              (students one_student)) 2))
  = total_students (select_statistics one_student) + 1.
Proof.
  split; [by vm_compute |].
  pose proof (C10_null_grade_accepted one_student "2024-01-03 00:00:00"
                "Zed" "zed@school.edu") as H.
  destruct H as (_ & _ & _ & _ & Hins & _ & _ & Htot & _); [by vm_compute |].
  split; [exact Hins | exact Htot].
Defined.

(** ** Scenarios on the sample table *)

Example list_min_grade_80 (now : string) :
  ∃ l,
    (student_manager.filter_students_by_grade 80 (fresh (init_db.run now None))).1
      = Return l ∧
    grade <$> l = [Some 95; Some 92; Some 88; Some 85].
Proof. eexists. split; [reflexivity | by vm_compute]. Qed.

Example list_by_name (now : string) :
  ∃ l,
    (student_manager.get_all_students (fresh (init_db.run now None))).1 = Return l ∧
    name <$> l
      = ["Alice Johnson"; "Bob Smith"; "Charlie Brown"; "Diana Prince"; "Eve Adams"].
Proof. eexists. split; [reflexivity | by vm_compute]. Qed.

Example update_absent_id (now : string) :
  student_manager.update_student 99 "Zed" "zed@school.edu" 50
    (fresh (init_db.run now None))
  = (Return false,
     Session (init_db.run now None)
       [Update 99 (Some "Zed") (Some "zed@school.edu") (Some 50)]).
Proof. by vm_compute. Qed.

Example create_then_get (now : string) :
  (student_manager.get_student_by_id 6
     (fresh (data (student_manager.add_student now "Zed" "zed@school.edu" 50
                     (fresh (init_db.run now None))).2))).1
  = Return (Some (Student 6 "Zed" "zed@school.edu" (Some 50) now)).
Proof. by vm_compute. Qed.

(** Running the script again inserts nothing. *)
Example init_db_again (now later : string) :
  students (init_db.run later (Some (init_db.run now None)))
  = students (init_db.run now None).
Proof. by vm_compute. Qed.

(** * Further properties of the repository and the handlers *)

(** ** Invariants, compositionally *)

Section keeps.

Context (P : db → Prop).

Lemma keeps_ret {A} (a : A) : keeps P (mret a).
Proof. by intros s H. Qed.

Lemma keeps_raise {A} (e : exn) : keeps P (@raise A e).
Proof. by intros s H. Qed.

Lemma keeps_bind {A B} (m : py A) (f : A → py B) :
  keeps P m → (∀ a, keeps P (f a)) → keeps P (m ≫= f).
Proof.
  intros Hm Hf s H. specialize (Hm s H). unfold mbind, py_bind.
  destruct (m s) as [[a|e] s']; simpl in *; [by apply Hf | done].
Qed.

Lemma keeps_try_except {A} (m h : py A) (caught : exn → bool) :
  keeps P m → keeps P h → keeps P (try_except m caught h).
Proof.
  intros Hm Hh s H. specialize (Hm s H). unfold try_except.
  destruct (m s) as [[a|e] s']; simpl in *; [done |].
  destruct (caught e); [by apply Hh | done].
Qed.

Lemma keeps_query {A} (q : stmt) (rows : db → A) : keeps P (execute_query q rows).
Proof. by intros s H. Qed.

Lemma keeps_insert now n e g :
  (∀ d, P d → P (engine_insert now n e g d).2) → keeps P (execute_insert now n e g).
Proof.
  intros HP s H. specialize (HP _ H). unfold execute_insert.
  by destruct (engine_insert now n e g (data s)) as [[c|k] d'].
Qed.

Lemma keeps_update i n e g :
  (∀ d, P d → P (engine_update i n e g d).2) → keeps P (execute_update i n e g).
Proof.
  intros HP s H. specialize (HP _ H). unfold execute_update.
  by destruct (engine_update i n e g (data s)) as [[c|k] d'].
Qed.

Lemma keeps_delete i :
  (∀ d, P d → P (engine_delete i d).2) → keeps P (execute_delete i).
Proof.
  intros HP s H. specialize (HP _ H). unfold execute_delete.
  by destruct (engine_delete i (data s)) as [k d'].
Qed.

Lemma keeps_getitem {A} (key : string) (f : backend.field A) :
  keeps P (backend.getitem key f).
Proof. destruct f; [apply keeps_raise | apply keeps_ret | apply keeps_ret]. Qed.

Lemma keeps_check_required (b : backend.body) (required : list string) :
  keeps P (backend.check_required b required).
Proof.
  induction required as [|k l IH]; simpl; [apply keeps_ret |].
  destruct (backend.contains b k); simpl; [done | apply keeps_raise].
Qed.

Lemma keeps_validate_json required (f : backend.body → py backend.response) b :
  keeps P (f b) → keeps P (backend.validate_json required f b).
Proof.
  intros Hf. unfold backend.validate_json.
  destruct (backend.truthy b); simpl; [| apply keeps_raise].
  apply keeps_bind; [apply keeps_check_required | done].
Qed.

Lemma data_serve (view : py backend.response) (s : session) :
  data (backend.serve view s).2 = data (view s).2.
Proof.
  unfold backend.serve. by destruct (view s) as [[r|[]] s'].
Qed.

End keeps.

(** ** The id counter *)

Lemma max_rowid_nonneg (t : gmap Z row) : 0 ≤ max_rowid t.
Proof.
  unfold max_rowid. induction ((map_to_list t).*1) as [|x l IH]; simpl; lia.
Qed.

Lemma next_rowid_gt_seq (d : db) : seq d < next_rowid d.
Proof. unfold next_rowid. lia. Qed.

Lemma next_rowid_pos (d : db) : 1 ≤ next_rowid d.
Proof. unfold next_rowid. pose proof (max_rowid_nonneg (students d)). lia. Qed.

Lemma next_rowid_gt_keys (d : db) (k : Z) (r : row) :
  students d !! k = Some r → k < next_rowid d.
Proof. intros H%max_rowid_ge. unfold next_rowid. lia. Qed.

Lemma engine_insert_cases now n e g d :
  (∃ c, engine_insert now n e g d = (inl c, d)) ∨
  (∃ n' e',
     n = Some n' ∧ e = Some e' ∧ check_grade g = true ∧
     email_taken (students d) None e' = false ∧
     engine_insert now n e g d
     = (inr (next_rowid d),
        Db (<[next_rowid d := Row n' e' g now]> (students d)) (next_rowid d))).
Proof.
  unfold engine_insert, checked_row.
  destruct n as [n'|]; [| left; eauto].
  destruct e as [e'|]; [| left; eauto]. simpl.
  destruct (check_grade g) eqn:Hg; simpl; [| left; eauto].
  destruct (email_taken _ _ _) eqn:He; [left; eauto |].
  right. exists n', e'. eauto 10.
Qed.

Lemma email_not_taken (t : gmap Z row) (self : option Z) (e : string) (k : Z) (r : row) :
  email_taken t self e = false → t !! k = Some r → Some k ≠ self → r_email r ≠ e.
Proof.
  intros Ht Hk Hs He. apply not_true_iff_false in Ht. apply Ht.
  apply email_taken_spec. eauto.
Qed.

(** ** The schema invariants under each statement *)

Lemma consistent_empty : consistent empty_db.
Proof. repeat split; simpl; try done; intros *; by rewrite lookup_empty. Qed.

Lemma consistent_insert now n e g d :
  consistent d → consistent (engine_insert now n e g d).2.
Proof.
  intros (Hs & Hid & Hg & Hu).
  destruct (engine_insert_cases now n e g d)
    as [(c & ->) | (n' & e' & -> & -> & Hc & Ht & ->)]; [done |].
  pose proof (next_rowid_gt_seq d) as Hgt. pose proof (next_rowid_pos d) as Hpos.
  unfold consistent. simpl. split; [lia |]. split; [| split].
  - intros k r [[<- <-] | [_ Hk]]%lookup_insert_Some; [lia |].
    apply Hid in Hk. lia.
  - intros k r [[<- <-] | [_ Hk]]%lookup_insert_Some; [done | by eapply Hg].
  - intros k1 k2 r1 r2 [[<- <-] | [? Hk1]]%lookup_insert_Some
      [[<- <-] | [? Hk2]]%lookup_insert_Some He; simpl in *; try done.
    + by destruct (email_not_taken _ _ _ _ _ Ht Hk2).
    + by destruct (email_not_taken _ _ _ _ _ Ht Hk1).
    + by eapply Hu.
Qed.

Lemma consistent_insert_or_ignore now n e g d :
  consistent d → consistent (engine_insert_or_ignore now n e g d).
Proof.
  intros H. pose proof (consistent_insert now n e g d H) as Hi.
  unfold engine_insert_or_ignore.
  destruct (engine_insert now n e g d) as [[c|k] d']; simpl in *; [| done].
  destruct H as (Hs & Hid & Hg & Hu). pose proof (next_rowid_gt_seq d).
  unfold consistent. simpl. split; [lia |]. split; [| done].
  intros k r Hk. apply Hid in Hk. lia.
Qed.

Lemma consistent_update i n e g d :
  consistent d → consistent (engine_update i n e g d).2.
Proof.
  intros (Hs & Hid & Hg & Hu).
  destruct (engine_update_cases i n e g d)
    as [(Hn & ->) | [(o & c & Ho & ->) |
         (o & n' & e' & Ho & -> & -> & Hc & Ht & ->)]]; [done | done |].
  unfold consistent. simpl. split; [lia |]. split; [| split].
  - intros k r [[<- <-] | [_ Hk]]%lookup_insert_Some; by eapply Hid.
  - intros k r [[<- <-] | [_ Hk]]%lookup_insert_Some; [done | by eapply Hg].
  - intros k1 k2 r1 r2 [[<- <-] | [? Hk1]]%lookup_insert_Some
      [[<- <-] | [? Hk2]]%lookup_insert_Some He; simpl in *; try done.
    + destruct (email_not_taken _ _ _ _ _ Ht Hk2); [congruence | done].
    + destruct (email_not_taken _ _ _ _ _ Ht Hk1); [congruence | done].
    + by eapply Hu.
Qed.

Lemma consistent_delete i d : consistent d → consistent (engine_delete i d).2.
Proof.
  intros (Hs & Hid & Hg & Hu). rewrite engine_delete_spec.
  unfold consistent. simpl. split; [done |]. split; [| split].
  - intros k r [_ Hk]%lookup_delete_Some. by eapply Hid.
  - intros k r [_ Hk]%lookup_delete_Some. by eapply Hg.
  - intros k1 k2 r1 r2 [_ Hk1]%lookup_delete_Some [_ Hk2]%lookup_delete_Some.
    by eapply Hu.
Qed.

(** ** Integer grades under each statement *)

Lemma graded_insert now n e g d :
  graded d → graded (engine_insert now n e (Some g) d).2.
Proof.
  intros H.
  destruct (engine_insert_cases now n e (Some g) d)
    as [(c & ->) | (n' & e' & -> & -> & Hc & Ht & ->)]; [done |].
  unfold graded. simpl.
  intros k r [[<- <-] | [_ Hk]]%lookup_insert_Some; [| by eapply H].
  exists g. split; [done |]. rewrite check_grade_Some in Hc.
  unfold grade_in_range in Hc. lia.
Qed.


Lemma graded_update i n e g d :
  graded d → graded (engine_update i n e (Some g) d).2.
Proof.
  intros H.
  destruct (engine_update_cases i n e (Some g) d)
    as [(Hn & ->) | [(o & c & Ho & ->) |
         (o & n' & e' & Ho & -> & -> & Hc & Ht & ->)]]; [done | done |].
  unfold graded. simpl.
  intros k r [[<- <-] | [_ Hk]]%lookup_insert_Some; [| by eapply H].
  exists g. split; [done |]. rewrite check_grade_Some in Hc.
  unfold grade_in_range in Hc. lia.
Qed.

Lemma graded_delete i d : graded d → graded (engine_delete i d).2.
Proof.
  intros H. rewrite engine_delete_spec. unfold graded. simpl.
  intros k r [_ Hk]%lookup_delete_Some. by eapply H.
Qed.

(** Splits a computation along its binds, branches and statements. *)
Ltac keeps_step :=
  first
    [ apply keeps_ret | apply keeps_raise | apply keeps_query
    | apply keeps_getitem | apply keeps_validate_json | apply keeps_try_except
    | apply keeps_bind; [| intros ?]
    | match goal with
      | |- keeps _ (if ?c then _ else _) => destruct c
      | |- keeps _ (match ?x with _ => _ end) => destruct x
      end ].

Lemma init_db_run_fold (P : db → Prop) (now : string) (file : option db) :
  (∀ n e g d, P d → P (engine_insert_or_ignore now (Some n) (Some e) (Some g) d)) →
  P (default empty_db file) → P (init_db.run now file).
Proof.
  intros Hstep. unfold init_db.run.
  generalize (default empty_db file). induction init_db.sample_students as [|[[n e] g] l IH];
    simpl; [done |].
  intros d Hd. apply IH. by apply Hstep.
Qed.

Lemma writers_keep_consistent_aux (now n e : string) (g : Z) :
  consistent empty_db ∧ keeps consistent (student_manager.add_student now n e g).
Proof.
  split; [apply consistent_empty |].
  unfold student_manager.add_student. repeat keeps_step.
  apply keeps_insert. intros. by apply consistent_insert.
Qed.

(** Every function that writes keeps the schema invariants: stored ids lie
    between 1 and the counter, stored grades are NULL or within [0,100],
    and no two rows share an email.  The invariants hold on the empty
    table, so they hold after any sequence of calls. *)
Theorem writers_keep_consistent (now : string) (i : Z) (n e : string) (g : Z)
    (b : backend.body) (file : option db) :
  consistent empty_db ∧
  keeps consistent (student_manager.add_student now n e g) ∧
  keeps consistent (student_manager.update_student i n e g) ∧
  keeps consistent (student_manager.delete_student i) ∧
  keeps consistent (backend.create_student now b) ∧
  keeps consistent (backend.update_student i b) ∧
  keeps consistent (backend.delete_student i) ∧
  (consistent (default empty_db file) → consistent (init_db.run now file)).
Proof.
  split; [apply consistent_empty |].
  unfold student_manager.add_student, student_manager.update_student,
    student_manager.delete_student, backend.create_student, backend.update_student,
    backend.delete_student, backend.create_student_view, backend.update_student_view,
    backend.query_db, backend.abort.
  split; [| split; [| split; [| split; [| split; [| split]]]]].
  7: by (apply init_db_run_fold; intros; apply consistent_insert_or_ignore).
  all: repeat keeps_step.
  all: try (apply keeps_insert; intros; by apply consistent_insert).
  all: try (apply keeps_update; intros; by apply consistent_update).
  all: apply keeps_delete; intros; by apply consistent_delete.
Qed.

Lemma graded_empty : graded empty_db.
Proof. intros k r. simpl. by rewrite lookup_empty. Qed.

Lemma keeps_graded_add_student now n e g :
  keeps graded (student_manager.add_student now n e g).
Proof.
  unfold student_manager.add_student. repeat keeps_step.
  apply keeps_insert. intros. by apply graded_insert.
Qed.


(** ** Extremes and average *)

Lemma foldr_max_spec (g : Z) (gs : list Z) :
  foldr Z.max g gs ∈ g :: gs ∧ ∀ x, x ∈ g :: gs → x ≤ foldr Z.max g gs.
Proof.
  induction gs as [|y gs [IHin IHle]]; simpl.
  - split; [by left |]. intros x ->%list_elem_of_singleton. lia.
  - split.
    + destruct (Z.max_spec y (foldr Z.max g gs)) as [[_ ->] | [_ ->]].
      * apply elem_of_cons in IHin as [Heq | Hin]; [rewrite Heq; by left |].
        right. by right.
      * right. by left.
    + intros x [-> | [-> | Hx]%elem_of_cons]%elem_of_cons.
      * specialize (IHle g (list_elem_of_here _ _)). lia.
      * lia.
      * specialize (IHle x (list_elem_of_further _ _ _ Hx)). lia.
Qed.

Lemma foldr_min_spec (g : Z) (gs : list Z) :
  foldr Z.min g gs ∈ g :: gs ∧ ∀ x, x ∈ g :: gs → foldr Z.min g gs ≤ x.
Proof.
  induction gs as [|y gs [IHin IHle]]; simpl.
  - split; [by left |]. intros x ->%list_elem_of_singleton. lia.
  - split.
    + destruct (Z.min_spec y (foldr Z.min g gs)) as [[_ ->] | [_ ->]].
      * right. by left.
      * apply elem_of_cons in IHin as [Heq | Hin]; [rewrite Heq; by left |].
        right. by right.
    + intros x [-> | [-> | Hx]%elem_of_cons]%elem_of_cons.
      * specialize (IHle g (list_elem_of_here _ _)). lia.
      * lia.
      * specialize (IHle x (list_elem_of_further _ _ _ Hx)). lia.
Qed.

Lemma sum_bounds (lo hi : Z) (l : list Z) :
  (∀ x, x ∈ l → lo ≤ x ≤ hi) →
  lo * Z.of_nat (length l) ≤ foldr Z.add 0 l ≤ hi * Z.of_nat (length l).
Proof.
  induction l as [|x l IH]; intros H; simpl foldr; simpl length; [lia |].
  pose proof (H x (list_elem_of_here _ _)).
  assert (∀ y, y ∈ l → lo ≤ y ≤ hi) as Hl by (intros y Hy; apply H; by right).
  specialize (IH Hl). lia.
Qed.

Lemma elem_of_grades (l : list student) (g : Z) :
  g ∈ grades l ↔ ∃ x, x ∈ l ∧ grade x = Some g.
Proof. unfold grades. apply list_elem_of_omap. Qed.

Lemma grades_perm (l1 l2 : list student) : l1 ≡ₚ l2 → grades l1 ≡ₚ grades l2.
Proof. intros H. unfold grades. by rewrite H. Qed.

Lemma elem_of_scan_grades (d : db) (g : Z) :
  g ∈ grades (scan d) ↔ ∃ x, x ∈ all_students d ∧ grade x = Some g.
Proof.
  rewrite elem_of_grades. split; intros (x & Hx & Hg); exists x;
    (split; [by apply elem_of_scan | done]).
Qed.

Lemma average_between (lo hi g : Z) (gs : list Z) :
  (∀ x, x ∈ g :: gs → lo ≤ x ≤ hi) →
  (inject_Z lo <= Qdiv (inject_Z (foldr Z.add 0%Z (g :: gs)))
                       (inject_Z (Z.of_nat (length (g :: gs)))) <= inject_Z hi)%Q.
Proof.
  intros H. pose proof (sum_bounds lo hi (g :: gs) H) as [Hlo Hhi].
  assert (0 < inject_Z (Z.of_nat (length (g :: gs))))%Q as Hpos.
  { rewrite <- (Zlt_Qlt 0). simpl length. lia. }
  split.
  - apply Qle_shift_div_l; [done |]. rewrite <- inject_Z_mult. by rewrite <- Zle_Qle.
  - apply Qle_shift_div_r; [done |]. rewrite <- inject_Z_mult. by rewrite <- Zle_Qle.
Qed.

(** The statistics record: [highest_grade] and [lowest_grade] are grades of
    stored students and bound every stored grade; they and
    [average_grade] are NULL exactly when no student has a grade; and the
    average lies between the lowest and the highest. *)
Theorem statistics_extremes (d : db) :
  let st := select_statistics d in
  (∀ h, highest_grade st = Some h →
     (∃ x, x ∈ all_students d ∧ grade x = Some h) ∧
     (∀ x g, x ∈ all_students d → grade x = Some g → g ≤ h)) ∧
  (∀ l, lowest_grade st = Some l →
     (∃ x, x ∈ all_students d ∧ grade x = Some l) ∧
     (∀ x g, x ∈ all_students d → grade x = Some g → l ≤ g)) ∧
  (highest_grade st = None ↔ ∀ x, x ∈ all_students d → grade x = None) ∧
  (lowest_grade st = None ↔ highest_grade st = None) ∧
  (average_grade st = None ↔ highest_grade st = None) ∧
  (∀ l h a,
     lowest_grade st = Some l → highest_grade st = Some h →
     average_grade st = Some a → (inject_Z l <= a <= inject_Z h)%Q).
Proof.
  unfold select_statistics. simpl. unfold sql_max, sql_min, sql_avg.
  pose proof (elem_of_scan_grades d) as Hmem.
  destruct (grades (scan d)) as [|g gs].
  - repeat split; try done.
    + intros _ x Hx. destruct (grade x) as [gx|] eqn:Hgx; [| done].
      assert (gx ∈ []) as Hin by (apply Hmem; eauto). by apply elem_of_nil in Hin.
  - destruct (foldr_max_spec g gs) as [Hmaxin Hmax].
    destruct (foldr_min_spec g gs) as [Hminin Hmin].
    split; [| split; [| split; [| split; [| split]]]]; try done.
    + intros h [= <-]. split; [by apply Hmem |].
      intros x gx Hx Hgx. apply Hmax, Hmem. eauto.
    + intros l [= <-]. split; [by apply Hmem |].
      intros x gx Hx Hgx. apply Hmin, Hmem. eauto.
    + split; [done |]. intros Hall.
      apply Hmem in Hmaxin as (x & Hx & Hgx). rewrite (Hall x Hx) in Hgx. done.
    + intros l h a [= <-] [= <-] [= <-]. apply average_between.
      intros x Hx. split; [by apply Hmin | by apply Hmax].
Qed.

Lemma graded_student (d : db) (x : student) :
  graded d → x ∈ all_students d → ∃ g, grade x = Some g ∧ 0 ≤ g ≤ 100.
Proof. intros H Hx%elem_of_all_students. by apply H in Hx. Qed.

(** When every stored grade is an integer within [0,100], as after any
    use of the menu alone, the four bucket counts sum to [total_students],
    and on a table that is not empty the lowest grade, the highest grade
    and the average exist with 0 <= lowest <= average <= highest <= 100. *)
Theorem graded_statistics (d : db) :
  graded d →
  let st := select_statistics d in
  a_students st + b_students st + c_students st + failing_students st
    = total_students st ∧
  (students d = ∅ ∨
   ∃ l h a,
     lowest_grade st = Some l ∧ highest_grade st = Some h ∧
     average_grade st = Some a ∧
     0 ≤ l ∧ l ≤ h ∧ h ≤ 100 ∧ (inject_Z l <= a <= inject_Z h)%Q).
Proof.
  intros Hg. unfold select_statistics. simpl. split.
  - rewrite bucket_counts_sum, null_grades_nil; [unfold count_star; simpl; lia |].
    intros x Hx%elem_of_scan. destruct (graded_student d x Hg Hx) as (g & -> & _). eauto.
  - unfold sql_max, sql_min, sql_avg.
    pose proof (elem_of_scan_grades d) as Hmem.
    destruct (grades (scan d)) as [|g gs] eqn:E.
    + left. apply map_size_empty_inv. rewrite <- length_scan.
      destruct (scan d) as [|x l] eqn:Es; [done |].
      assert (x ∈ all_students d) as Hx by (apply elem_of_scan; rewrite Es; by left).
      destruct (graded_student d x Hg Hx) as (gx & Hgx & _).
      assert (gx ∈ []) as Hin by (apply Hmem; eauto). by apply elem_of_nil in Hin.
    + right. destruct (foldr_max_spec g gs) as [Hmaxin Hmax].
      destruct (foldr_min_spec g gs) as [Hminin Hmin].
      assert (∀ y, y ∈ g :: gs → 0 ≤ y ≤ 100) as Hrange.
      { intros y (x & Hx & Hy)%Hmem.
        destruct (graded_student d x Hg Hx) as (gx & Hgx & ?). congruence. }
      eexists _, _, _. do 3 (split; [reflexivity |]).
      split; [by apply Hrange |]. split; [| split; [by apply Hrange |]].
      * pose proof (Hmin g (list_elem_of_here _ _)).
        pose proof (Hmax g (list_elem_of_here _ _)). lia.
      * apply average_between. intros y Hy. split; [by apply Hmin | by apply Hmax].
Qed.

Lemma graded_statistics_witness :
  graded one_student ∧
  a_students (select_statistics one_student) + b_students (select_statistics one_student)
  + c_students (select_statistics one_student)
  + failing_students (select_statistics one_student)
  = total_students (select_statistics one_student).
Proof.
  assert (graded one_student) as H
    by apply (keeps_graded_add_student _ _ _ _ (fresh empty_db)), graded_empty.
  split; [exact H |]. exact (proj1 (graded_statistics one_student H)).
Defined.

(** ** Create and look up *)

Lemma add_student_outcomes_aux (s : session) (now n e : string) (g : Z) :
  grade_in_range g = true →
  email_taken (students (data s)) None e = false →
  student_manager.add_student now n e g s
  = (Return (next_rowid (data s)),
     Session (Db (<[next_rowid (data s) := Row n e (Some g) now]> (students (data s)))
                 (next_rowid (data s)))
       (sent s ++ [Insert (Some n) (Some e) (Some g)])).
Proof.
  intros Hg He. unfold student_manager.add_student, execute_insert, log.
  rewrite Hg. simpl. by rewrite engine_insert_ok by (by rewrite ?check_grade_Some).
Qed.

(** The menu's [add_student], case by case: a grade outside [0,100] raises
    [ValueError] with nothing sent; an email that a stored student has
    makes the [INSERT] raise [IntegrityError], which the function lets
    through, and the table is unchanged; otherwise the row is stored under
    the next id, which the function returns. *)
Theorem add_student_outcomes (s : session) (now n e : string) (g : Z) :
  student_manager.add_student now n e g s
  = if negb (grade_in_range g) then (Raise (ValueError grade_message), s)
    else if email_taken (students (data s)) None e
    then (Raise (IntegrityError (Unique email_col)),
          Session (data s) (sent s ++ [Insert (Some n) (Some e) (Some g)]))
    else (Return (next_rowid (data s)),
          Session (Db (<[next_rowid (data s) := Row n e (Some g) now]>
                         (students (data s)))
                      (next_rowid (data s)))
            (sent s ++ [Insert (Some n) (Some e) (Some g)])).
Proof.
  unfold student_manager.add_student, raise, execute_insert, log.
  destruct (grade_in_range g) eqn:Hg; simpl; [| done].
  destruct (email_taken (students (data s)) None e) eqn:He.
  - by rewrite engine_insert_unique by (by rewrite ?check_grade_Some).
  - by rewrite engine_insert_ok by (by rewrite ?check_grade_Some).
Qed.

(** A student added through the menu is found again: when the grade is
    within [0,100] and the email is new, [add_student] returns an id that
    was not in the table and is larger than every stored id,
    [get_student_by_id] on that id returns exactly the name, email and
    grade given with the time of the insertion, and looking up any other
    id gives what it gave before. *)
Theorem add_then_get (s : session) (now n e : string) (g : Z) :
  grade_in_range g = true →
  email_taken (students (data s)) None e = false →
  ∃ k s1,
    student_manager.add_student now n e g s = (Return k, s1) ∧
    students (data s) !! k = None ∧
    (∀ j r, students (data s) !! j = Some r → j < k) ∧
    (student_manager.get_student_by_id k s1).1
      = Return (Some (Student k n e (Some g) now)) ∧
    (∀ j, j ≠ k →
       (student_manager.get_student_by_id j s1).1
       = (student_manager.get_student_by_id j s).1).
Proof.
  intros Hg He. eexists _, _. split.
  { rewrite add_student_outcomes_aux by done. reflexivity. }
  split; [apply next_rowid_fresh |]. split; [apply next_rowid_gt_keys |].
  unfold student_manager.get_student_by_id, execute_query, select_by_id. simpl.
  split; [by rewrite lookup_insert_eq |].
  intros j Hj. by rewrite lookup_insert_ne.
Qed.

Lemma add_then_get_witness :
  grade_in_range 75 = true ∧
  email_taken (students one_student) None "ben@school.edu" = false ∧
  ∃ k s1,
    student_manager.add_student "2024-01-02 00:00:00" "Ben" "ben@school.edu" 75
      (fresh one_student) = (Return k, s1) ∧
    (student_manager.get_student_by_id k s1).1
      = Return (Some (Student k "Ben" "ben@school.edu" (Some 75) "2024-01-02 00:00:00")).
Proof.
  split; [reflexivity |]. split; [by vm_compute |].
  destruct (add_then_get (fresh one_student) "2024-01-02 00:00:00" "Ben"
              "ben@school.edu" 75) as (k & s1 & Hadd & _ & _ & Hget & _);
    [reflexivity | by vm_compute |].
  exists k, s1. split; [exact Hadd | exact Hget].
Defined.

(** ** The HTTP create *)

Lemma http_create_ok (s : session) (now n e : string) (g : Z) (others : list string) :
  grade_in_range g = true →
  email_taken (students (data s)) None e = false →
  backend.serve
    (backend.create_student now
       (backend.Body (backend.value n) (backend.value e) (backend.value g) others)) s
  = (backend.Responded
       (backend.Response 201
          (backend.Created (next_rowid (data s)) "Student created successfully")),
     Session (Db (<[next_rowid (data s) := Row n e (Some g) now]> (students (data s)))
                 (next_rowid (data s)))
       (sent s ++ [Insert (Some n) (Some e) (Some g)])).
Proof.
  intros Hg He. run. rewrite Hg. simpl.
  by rewrite engine_insert_ok by (by rewrite ?check_grade_Some).
Qed.

(** A student created over HTTP is served back: when the body has a name,
    an email that is new and a grade within [0,100], [POST] answers 201
    with an id that was not in the table, and [GET] on that id answers 200
    with exactly the posted name, email and grade. *)
Theorem http_create_then_get (s : session) (now n e : string) (g : Z)
    (others : list string) :
  grade_in_range g = true →
  email_taken (students (data s)) None e = false →
  ∃ k s1,
    backend.serve
      (backend.create_student now
         (backend.Body (backend.value n) (backend.value e) (backend.value g) others)) s
    = (backend.Responded
         (backend.Response 201 (backend.Created k "Student created successfully")), s1) ∧
    students (data s) !! k = None ∧
    (backend.serve (backend.get_student k) s1).1
    = backend.Responded
        (backend.Response 200
           (backend.OneStudent (Some (Student k n e (Some g) now)))).
Proof.
  intros Hg He. eexists _, _. split; [by apply http_create_ok |].
  split; [apply next_rowid_fresh |].
  unfold backend.serve, backend.get_student, backend.query_db, execute_query,
    select_by_id, mbind, py_bind. simpl. by rewrite lookup_insert_eq.
Qed.

Lemma http_create_then_get_witness :
  grade_in_range 75 = true ∧
  email_taken (students one_student) None "ben@school.edu" = false ∧
  ∃ k s1,
    backend.serve
      (backend.create_student "2024-01-02 00:00:00" (full_body "Ben" "ben@school.edu" 75))
      (fresh one_student)
    = (backend.Responded
         (backend.Response 201 (backend.Created k "Student created successfully")), s1) ∧
    (backend.serve (backend.get_student k) s1).1
    = backend.Responded
        (backend.Response 200
           (backend.OneStudent
              (Some (Student k "Ben" "ben@school.edu" (Some 75) "2024-01-02 00:00:00")))).
Proof.
  split; [reflexivity |]. split; [by vm_compute |].
  destruct (http_create_then_get (fresh one_student) "2024-01-02 00:00:00" "Ben"
              "ben@school.edu" 75 []) as (k & s1 & Hpost & _ & Hget);
    [reflexivity | by vm_compute |].
  exists k, s1. split; [exact Hpost | exact Hget].
Defined.

(** The HTTP create reports every integrity error of the [INSERT] as a
    duplicate email: a body whose name or email is [null], with a grade
    within [0,100], violates [NOT NULL] and is answered 400 "Email already
    exists", whether or not the email is taken; the table is unchanged. *)
Theorem http_create_null_text_reported_as_duplicate (s : session) (now : string)
    (fn fe : backend.field string) (g : Z) (others : list string) :
  grade_in_range g = true →
  (fn = backend.null ∧ backend.present fe = true) ∨
  (backend.present fn = true ∧ fe = backend.null) →
  ∃ n e,
    backend.serve
      (backend.create_student now (backend.Body fn fe (backend.value g) others)) s
    = (backend.Responded
         (backend.Response 400 (backend.Error "Email already exists" 400)),
       Session (data s) (sent s ++ [Insert n e (Some g)])) ∧
    (n = None ∨ e = None).
Proof.
  intros Hg [[-> Hfe] | [Hfn ->]].
  - destruct fe as [| |e]; [done | |]; eexists None, _; run; rewrite Hg; simpl;
      (split; [reflexivity | by left]).
  - destruct fn as [| |n]; [done | |]; eexists _, None; run; rewrite Hg; simpl;
      (split; [reflexivity | by right]).
Qed.

Lemma http_create_null_text_reported_as_duplicate_witness :
  grade_in_range 90 = true ∧
  email_taken (students empty_db) None "ann@school.edu" = false ∧
  backend.serve
    (backend.create_student "2024-01-01 00:00:00"
       (backend.Body backend.null (backend.value "ann@school.edu") (backend.value 90) []))
    (fresh empty_db)
  = (backend.Responded
       (backend.Response 400 (backend.Error "Email already exists" 400)),
     Session empty_db [Insert None (Some "ann@school.edu") (Some 90)]).
Proof.
  split; [reflexivity |]. split; [by vm_compute |].
  destruct (http_create_null_text_reported_as_duplicate (fresh empty_db)
              "2024-01-01 00:00:00" backend.null (backend.value "ann@school.edu") 90 [])
    as (n & e & H & _); [reflexivity | by left |].
  rewrite H. vm_compute in H. by injection H as <- <-.
Defined.

(** A create request whose grade is [null] passes the decorator (the key is
    there) and then fails in the range comparison with [TypeError], which
    no handler catches: the client gets a server error, and no statement
    is sent. *)
Theorem http_create_null_grade_server_error (s : session) (now : string)
    (fn fe : backend.field string) (others : list string) :
  backend.present fn = true →
  backend.present fe = true →
  backend.serve
    (backend.create_student now (backend.Body fn fe backend.null others)) s
  = (backend.ServerError TypeError, s).
Proof.
  intros Hn He. destruct fn; [done | |]; (destruct fe; [done | |]); by run.
Qed.

Lemma http_create_null_grade_server_error_witness :
  backend.present (backend.value "Ann") = true ∧
  backend.present (backend.value "ann@school.edu") = true ∧
  backend.serve
    (backend.create_student "2024-01-01 00:00:00"
       (backend.Body (backend.value "Ann") (backend.value "ann@school.edu")
          backend.null []))
    (fresh empty_db)
  = (backend.ServerError TypeError, fresh empty_db).
Proof.
  split; [reflexivity |]. split; [reflexivity |].
  by apply (http_create_null_grade_server_error (fresh empty_db)).
Defined.

(** ** Update and delete, composed with look-up *)

Lemma menu_update_ok (s : session) (i : Z) (old : row) (n e : string) (g : Z) :
  students (data s) !! i = Some old →
  grade_in_range g = true →
  email_taken (students (data s)) (Some i) e = false →
  student_manager.update_student i n e g s
  = (Return true,
     Session (Db (<[i := Row n e (Some g) (r_created_at old)]> (students (data s)))
                 (seq (data s)))
       (sent s ++ [Update i (Some n) (Some e) (Some g)])).
Proof.
  intros Hi Hg He. unfold student_manager.update_student. rewrite Hg. run.
  by rewrite (engine_update_ok _ _ _ _ _ old) by (by rewrite ?check_grade_Some).
Qed.

Lemma email_taken_insert_self (t : gmap Z row) (i : Z) (r : row) (e : string) :
  email_taken (<[i := r]> t) (Some i) e = email_taken t (Some i) e.
Proof.
  apply eq_true_iff_eq. rewrite !email_taken_spec. split.
  - intros (k & r' & [[<- _] | [_ Hk]]%lookup_insert_Some & Hne & He); [done | eauto].
  - intros (k & r' & Hk & Hne & He). exists k, r'.
    rewrite lookup_insert_ne by congruence. done.
Qed.

(** A successful update through the menu is read back and can be repeated:
    when the id is stored, the grade is within [0,100] and no other student
    has the email, [update_student] returns [True], [get_student_by_id]
    then returns the new name, email and grade with the old [created_at],
    and the same update applied again returns [True] and leaves the table
    as it is. *)
Theorem update_then_get (s : session) (i : Z) (old : row) (n e : string) (g : Z) :
  students (data s) !! i = Some old →
  grade_in_range g = true →
  email_taken (students (data s)) (Some i) e = false →
  ∃ s1,
    student_manager.update_student i n e g s = (Return true, s1) ∧
    (student_manager.get_student_by_id i s1).1
      = Return (Some (Student i n e (Some g) (r_created_at old))) ∧
    (student_manager.update_student i n e g s1).1 = Return true ∧
    data (student_manager.update_student i n e g s1).2 = data s1.
Proof.
  intros Hi Hg He. eexists. split; [by apply (menu_update_ok _ _ old) |].
  split.
  { unfold student_manager.get_student_by_id, execute_query, select_by_id. simpl.
    by rewrite lookup_insert_eq. }
  rewrite (menu_update_ok _ _ (Row n e (Some g) (r_created_at old))); simpl.
  - split; [done |]. by rewrite insert_insert_eq.
  - by rewrite lookup_insert_eq.
  - done.
  - by rewrite email_taken_insert_self.
Qed.

Lemma update_then_get_witness :
  students one_student !! 1
    = Some (Row "Ann" "ann@school.edu" (Some 90) "2024-01-01 00:00:00") ∧
  grade_in_range 95 = true ∧
  email_taken (students one_student) (Some 1) "anna@school.edu" = false ∧
  ∃ s1,
    student_manager.update_student 1 "Anna" "anna@school.edu" 95 (fresh one_student)
      = (Return true, s1) ∧
    (student_manager.get_student_by_id 1 s1).1
      = Return (Some (Student 1 "Anna" "anna@school.edu" (Some 95)
                        "2024-01-01 00:00:00")).
Proof.
  split; [by vm_compute |]. split; [reflexivity |]. split; [by vm_compute |].
  destruct (update_then_get (fresh one_student) 1
              (Row "Ann" "ann@school.edu" (Some 90) "2024-01-01 00:00:00")
              "Anna" "anna@school.edu" 95) as (s1 & Hup & Hget & _);
    [by vm_compute | reflexivity | by vm_compute |].
  exists s1. split; [exact Hup | exact Hget].
Defined.

(** A student keeps the own email through an update: on a table without
    duplicate emails, updating a stored student with the email it already
    has and a grade within [0,100] succeeds. *)
Theorem update_with_own_email (s : session) (i : Z) (old : row) (n : string) (g : Z) :
  consistent (data s) →
  students (data s) !! i = Some old →
  grade_in_range g = true →
  student_manager.update_student i n (r_email old) g s
  = (Return true,
     Session (Db (<[i := Row n (r_email old) (Some g) (r_created_at old)]>
                    (students (data s)))
                 (seq (data s)))
       (sent s ++ [Update i (Some n) (Some (r_email old)) (Some g)])).
Proof.
  intros (_ & _ & _ & Hu) Hi Hg. apply (menu_update_ok _ _ old); try done.
  apply not_true_iff_false. intros (k & r & Hk & Hne & He)%email_taken_spec.
  apply Hne. f_equal. by eapply Hu.
Qed.

Lemma update_with_own_email_witness :
  consistent one_student ∧
  students one_student !! 1
    = Some (Row "Ann" "ann@school.edu" (Some 90) "2024-01-01 00:00:00") ∧
  grade_in_range 100 = true ∧
  (student_manager.update_student 1 "Ann" "ann@school.edu" 100 (fresh one_student)).1
    = Return true.
Proof.
  assert (consistent one_student) as Hc.
  { apply (proj2 (writers_keep_consistent_aux "2024-01-01 00:00:00" "Ann"
                    "ann@school.edu" 90) (fresh empty_db)), consistent_empty. }
  split; [exact Hc |]. split; [by vm_compute |]. split; [reflexivity |].
  pose proof (update_with_own_email (fresh one_student) 1
                (Row "Ann" "ann@school.edu" (Some 90) "2024-01-01 00:00:00") "Ann" 100
                Hc) as H.
  simpl r_email in H. rewrite H; [done | by vm_compute | reflexivity].
Defined.

Lemma menu_delete_spec (s : session) (i : Z) :
  student_manager.delete_student i s
  = (Return (bool_decide (is_Some (students (data s) !! i))),
     Session (Db (delete i (students (data s))) (seq (data s))) (sent s ++ [Delete i])).
Proof.
  unfold student_manager.delete_student. run. rewrite engine_delete_spec. simpl.
  by destruct (bool_decide (is_Some (students (data s) !! i))).
Qed.

(** After [delete_student] the id is gone from every reading function:
    look-up by id gives nothing (404 over HTTP), and neither the full
    listing nor any filtered listing contains a student with that id. *)
Theorem delete_then_gone (s : session) (i m : Z) :
  let s1 := (student_manager.delete_student i s).2 in
  (student_manager.get_student_by_id i s1).1 = Return None ∧
  (backend.serve (backend.get_student i) s1).1
    = backend.Responded (backend.Response 404 (backend.Error "Student not found" 404)) ∧
  (∃ l, (student_manager.get_all_students s1).1 = Return l ∧ ∀ x, x ∈ l → id x ≠ i) ∧
  (∃ l, (student_manager.filter_students_by_grade m s1).1 = Return l ∧
        ∀ x, x ∈ l → id x ≠ i).
Proof.
  rewrite menu_delete_spec. simpl.
  assert (∀ x q, x ∈ all_students (Db (delete i (students (data s))) q) → id x ≠ i)
    as Hall.
  { intros x q Hx%elem_of_all_students Heq. simpl in Hx.
    rewrite Heq, lookup_delete_eq in Hx. done. }
  split; [| split; [| split]].
  - unfold student_manager.get_student_by_id, execute_query, select_by_id. simpl.
    by rewrite lookup_delete_eq.
  - unfold backend.serve, backend.get_student, backend.query_db, execute_query,
      select_by_id, mbind, py_bind. simpl. by rewrite lookup_delete_eq.
  - eexists. split; [reflexivity |]. intros x Hx. simpl in Hx.
    rewrite (proj1 (select_all_by_name_spec _)) in Hx. by eapply Hall.
  - eexists. split; [reflexivity |]. intros x Hx. simpl in Hx.
    apply (proj1 (proj2 (select_by_min_grade_spec m _))) in Hx as [Hx _].
    by eapply Hall.
Qed.

(** Adding a student and deleting it again restores the rows of the table;
    only the id counter has moved on. *)
Theorem add_then_delete (s : session) (now n e : string) (g : Z) :
  grade_in_range g = true →
  email_taken (students (data s)) None e = false →
  ∃ k s1 s2,
    student_manager.add_student now n e g s = (Return k, s1) ∧
    student_manager.delete_student k s1 = (Return true, s2) ∧
    students (data s2) = students (data s) ∧
    seq (data s2) = k ∧ seq (data s) < k.
Proof.
  intros Hg He. eexists _, _, _.
  split; [by apply add_student_outcomes_aux |].
  rewrite menu_delete_spec. simpl. rewrite lookup_insert_eq.
  rewrite bool_decide_eq_true_2 by eauto.
  split; [reflexivity |]. simpl.
  split; [| split; [done | apply next_rowid_gt_seq]].
  rewrite delete_insert_eq. apply delete_id, next_rowid_fresh.
Qed.

Lemma add_then_delete_witness :
  grade_in_range 75 = true ∧
  email_taken (students one_student) None "ben@school.edu" = false ∧
  ∃ k s1 s2,
    student_manager.add_student "2024-01-02 00:00:00" "Ben" "ben@school.edu" 75
      (fresh one_student) = (Return k, s1) ∧
    student_manager.delete_student k s1 = (Return true, s2) ∧
    students (data s2) = students one_student.
Proof.
  split; [reflexivity |]. split; [by vm_compute |].
  destruct (add_then_delete (fresh one_student) "2024-01-02 00:00:00" "Ben"
              "ben@school.edu" 75) as (k & s1 & s2 & Ha & Hd & Hs & _);
    [reflexivity | by vm_compute |].
  exists k, s1, s2. split; [exact Ha |]. split; [exact Hd | exact Hs].
Defined.

(** ** Ids are not handed out twice *)

Lemma retired_refl (d0 : db) : retired_stay d0 d0.
Proof. split; [lia | done]. Qed.

Lemma retired_insert d0 now n e g d :
  retired_stay d0 d → retired_stay d0 (engine_insert now n e g d).2.
Proof.
  intros [Hs Hr].
  destruct (engine_insert_cases now n e g d)
    as [(c & ->) | (n' & e' & -> & -> & Hc & Ht & ->)]; [done |].
  pose proof (next_rowid_gt_seq d). unfold retired_stay. simpl.
  split; [lia |]. intros k Hk Hnone. rewrite lookup_insert_ne by lia. by apply Hr.
Qed.

Lemma retired_insert_or_ignore d0 now n e g d :
  retired_stay d0 d → retired_stay d0 (engine_insert_or_ignore now n e g d).
Proof.
  intros H. pose proof (retired_insert d0 now n e g d H) as Hi.
  unfold engine_insert_or_ignore.
  destruct (engine_insert now n e g d) as [[c|k] d']; simpl in *; [| done].
  destruct H as [Hs Hr]. pose proof (next_rowid_gt_seq d).
  unfold retired_stay. simpl. split; [lia | done].
Qed.

Lemma retired_update d0 i n e g d :
  retired_stay d0 d → retired_stay d0 (engine_update i n e g d).2.
Proof.
  intros [Hs Hr].
  destruct (engine_update_cases i n e g d)
    as [(Hn & ->) | [(o & c & Ho & ->) |
         (o & n' & e' & Ho & -> & -> & Hc & Ht & ->)]]; [done | done |].
  unfold retired_stay. simpl. split; [done |]. intros k Hk Hnone.
  specialize (Hr k Hk Hnone). rewrite lookup_insert_ne by congruence. done.
Qed.

Lemma retired_delete d0 i d :
  retired_stay d0 d → retired_stay d0 (engine_delete i d).2.
Proof.
  intros [Hs Hr]. rewrite engine_delete_spec. unfold retired_stay. simpl.
  split; [done |]. intros k Hk Hnone. apply lookup_delete_None. right. by apply Hr.
Qed.

(** No writer brings a retired id back: whatever the state [d0] one starts
    from, each of the writing functions keeps the counter from going back
    and keeps every id that the counter had passed and that was not stored
    in [d0] out of the table; so this holds after any sequence of calls. *)
Theorem retired_ids_stay_retired (d0 : db) (now : string) (i : Z) (n e : string)
    (g : Z) (b : backend.body) (file : option db) :
  retired_stay d0 d0 ∧
  keeps (retired_stay d0) (student_manager.add_student now n e g) ∧
  keeps (retired_stay d0) (student_manager.update_student i n e g) ∧
  keeps (retired_stay d0) (student_manager.delete_student i) ∧
  keeps (retired_stay d0) (backend.create_student now b) ∧
  keeps (retired_stay d0) (backend.update_student i b) ∧
  keeps (retired_stay d0) (backend.delete_student i) ∧
  (retired_stay d0 (default empty_db file) → retired_stay d0 (init_db.run now file)).
Proof.
  split; [apply retired_refl |].
  unfold student_manager.add_student, student_manager.update_student,
    student_manager.delete_student, backend.create_student, backend.update_student,
    backend.delete_student, backend.create_student_view, backend.update_student_view,
    backend.query_db, backend.abort.
  split; [| split; [| split; [| split; [| split; [| split]]]]].
  7: by (apply init_db_run_fold; intros; apply retired_insert_or_ignore).
  all: repeat keeps_step.
  all: try (apply keeps_insert; intros; by apply retired_insert).
  all: try (apply keeps_update; intros; by apply retired_update).
  all: apply keeps_delete; intros; by apply retired_delete.
Qed.

(** The id of a deleted student is not given to the next one: on a table
    whose ids came from the counter, after [delete_student] of a stored id
    every successful [add_student] returns a larger id. *)
Theorem deleted_id_not_handed_out (s : session) (i : Z) (old : row)
    (now n e : string) (g : Z) :
  consistent (data s) →
  students (data s) !! i = Some old →
  grade_in_range g = true →
  email_taken (delete i (students (data s))) None e = false →
  ∃ k s2,
    student_manager.add_student now n e g (student_manager.delete_student i s).2
      = (Return k, s2) ∧
    i < k.
Proof.
  intros (_ & Hid & _) Hi Hg He. rewrite menu_delete_spec. simpl.
  eexists _, _. split; [by apply add_student_outcomes_aux |]. simpl.
  specialize (Hid i old Hi).
  pose proof (next_rowid_gt_seq (Db (delete i (students (data s))) (seq (data s)))).
  simpl in *. lia.
Qed.

Lemma deleted_id_not_handed_out_witness :
  consistent one_student ∧
  students one_student !! 1
    = Some (Row "Ann" "ann@school.edu" (Some 90) "2024-01-01 00:00:00") ∧
  grade_in_range 75 = true ∧
  email_taken (delete 1 (students one_student)) None "ann@school.edu" = false ∧
  ∃ k s2,
    student_manager.add_student "2024-01-02 00:00:00" "Ann" "ann@school.edu" 75
      (student_manager.delete_student 1 (fresh one_student)).2 = (Return k, s2) ∧
    1 < k.
Proof.
  assert (consistent one_student) as Hc.
  { apply (proj2 (writers_keep_consistent_aux "2024-01-01 00:00:00" "Ann"
                    "ann@school.edu" 90) (fresh empty_db)), consistent_empty. }
  split; [exact Hc |]. split; [by vm_compute |]. split; [reflexivity |].
  split; [by vm_compute |].
  apply (deleted_id_not_handed_out (fresh one_student) 1
           (Row "Ann" "ann@school.edu" (Some 90) "2024-01-01 00:00:00")); try done.
  all: by vm_compute.
Defined.

(** ** [init_db.py] on an existing database *)

Section init_db.

Context (now : string).

Local Abbreviation step :=
  (λ (d : db) '(n, e, g), engine_insert_or_ignore now (Some n) (Some e) (Some g) d).
Local Abbreviation load l d := (foldl step d l).

Lemma insert_or_ignore_students (n e : string) (g : Z) (d : db) :
  students (engine_insert_or_ignore now (Some n) (Some e) (Some g) d)
  = if grade_in_range g && negb (email_taken (students d) None e)
    then <[next_rowid d := Row n e (Some g) now]> (students d)
    else students d.
Proof.
  unfold engine_insert_or_ignore.
  destruct (grade_in_range g) eqn:Hg; simpl.
  - destruct (email_taken (students d) None e) eqn:He; simpl.
    + by rewrite engine_insert_unique by (by rewrite ?check_grade_Some).
    + by rewrite engine_insert_ok by (by rewrite ?check_grade_Some).
  - by rewrite engine_insert_check.
Qed.

Lemma insert_or_ignore_keeps_rows (n e : string) (g : Z) (d : db) (k : Z) (r : row) :
  students d !! k = Some r →
  students (engine_insert_or_ignore now (Some n) (Some e) (Some g) d) !! k = Some r.
Proof.
  intros Hk. rewrite insert_or_ignore_students.
  destruct (_ && _); [| done]. rewrite lookup_insert_ne; [done |].
  intros Heq. rewrite <- Heq, next_rowid_fresh in Hk. done.
Qed.

Lemma load_keeps_rows (l : list (string * string * Z)) (d : db) (k : Z) (r : row) :
  students d !! k = Some r → students (load l d) !! k = Some r.
Proof.
  revert d. induction l as [|[[n e] g] l IH]; intros d Hk; simpl; [done |].
  by apply IH, insert_or_ignore_keeps_rows.
Qed.

Lemma load_keeps_taken (l : list (string * string * Z)) (d : db) (e : string) :
  email_taken (students d) None e = true →
  email_taken (students (load l d)) None e = true.
Proof.
  intros (k & r & Hk & Hne & He)%email_taken_spec. apply email_taken_spec.
  exists k, r. split; [by apply load_keeps_rows | done].
Qed.

Lemma insert_or_ignore_takes (n e : string) (g : Z) (d : db) :
  grade_in_range g = true →
  email_taken (students (engine_insert_or_ignore now (Some n) (Some e) (Some g) d))
    None e = true.
Proof.
  intros Hg. rewrite insert_or_ignore_students, Hg. simpl.
  destruct (email_taken (students d) None e) eqn:He; simpl; [done |].
  apply email_taken_spec. exists (next_rowid d), (Row n e (Some g) now).
  by rewrite lookup_insert_eq.
Qed.

Lemma load_takes (l : list (string * string * Z)) (d : db) (n e : string) (g : Z) :
  Forall (λ x, grade_in_range x.2 = true) l →
  (n, e, g) ∈ l → email_taken (students (load l d)) None e = true.
Proof.
  revert d. induction l as [|[[n' e'] g'] l IH]; intros d Hall Hin; simpl.
  - by apply elem_of_nil in Hin.
  - apply Forall_cons in Hall as [Hg Hall].
    apply elem_of_cons in Hin as [[= -> -> ->] | Hin]; [| by apply IH].
    by apply load_keeps_taken, insert_or_ignore_takes.
Qed.

Lemma load_all_taken (l : list (string * string * Z)) (d : db) :
  (∀ n e g, (n, e, g) ∈ l → email_taken (students d) None e = true) →
  students (load l d) = students d.
Proof.
  revert d. induction l as [|[[n e] g] l IH]; intros d Hall; simpl; [done |].
  assert (students (engine_insert_or_ignore now (Some n) (Some e) (Some g) d)
          = students d) as Hsame.
  { rewrite insert_or_ignore_students, (Hall n e g) by left.
    by rewrite andb_false_r. }
  rewrite IH; [done |]. intros n' e' g' Hin. rewrite Hsame. apply (Hall n' e' g').
  by right.
Qed.

Lemma load_new_rows (l : list (string * string * Z)) (d : db) (k : Z) (r : row) :
  students (load l d) !! k = Some r →
  students d !! k = Some r ∨
  ∃ g, (r_name r, r_email r, g) ∈ l ∧ r_grade r = Some g ∧ r_created_at r = now.
Proof.
  revert d. induction l as [|[[n e] g] l IH]; intros d Hk; simpl in *; [by left |].
  apply IH in Hk as [Hk | (g' & Hin & Hr)].
  - rewrite insert_or_ignore_students in Hk. destruct (_ && _); [| by left].
    apply lookup_insert_Some in Hk as [[_ <-] | [_ Hk]]; [| by left].
    right. exists g. split; [by left | done].
  - right. exists g'. split; [by right | done].
Qed.

End init_db.

Lemma sample_grades_in_range :
  Forall (λ x : string * string * Z, grade_in_range x.2 = true) init_db.sample_students.
Proof. repeat constructor. Qed.

(** Running [init_db.py] on any database: every row that was there stays
    as it was; every row that is new is one of the five samples, stamped
    with the time of the run; afterwards each sample's email is held by
    some student; and running the script again changes no row. *)
Theorem init_db_on_existing (now later : string) (file : option db) :
  let d := default empty_db file in
  let d' := init_db.run now file in
  (∀ k r, students d !! k = Some r → students d' !! k = Some r) ∧
  (∀ k r, students d' !! k = Some r →
     students d !! k = Some r ∨
     ∃ g, (r_name r, r_email r, g) ∈ init_db.sample_students ∧
          r_grade r = Some g ∧ r_created_at r = now) ∧
  (∀ n e g, (n, e, g) ∈ init_db.sample_students →
     email_taken (students d') None e = true) ∧
  students (init_db.run later (Some d')) = students d'.
Proof.
  intros d d'. unfold d', d, init_db.run. clear d d'. split; [| split; [| split]].
  - intros k r. apply load_keeps_rows.
  - intros k r. apply load_new_rows.
  - intros n e g. apply load_takes, sample_grades_in_range.
  - apply (load_all_taken later). intros n e g.
    apply load_takes, sample_grades_in_range.
Qed.

(** ** The decorator and the replies *)

Lemma check_required_spec (b : backend.body) (required : list string) (s : session) :
  backend.check_required b required s
  = match find (λ k, negb (backend.contains b k)) required with
    | Some k => (Raise (HTTPException 400 ("Missing required field: " +:+ k)), s)
    | None => (Return (), s)
    end.
Proof.
  induction required as [|k l IH]; simpl; [done |].
  destruct (backend.contains b k); simpl; [apply IH | done].
Qed.

(** The decorator [validate_json], for any list of required fields and any
    view: an empty body is answered 400 "No JSON data provided"; else the
    first required field, in the order given, that the body lacks is
    named in a 400; in both cases the view does not run and nothing is
    sent.  When no required field is missing the decorated view behaves
    exactly as the view. *)
Theorem validate_json_spec (required : list string)
    (f : backend.body → py backend.response) (b : backend.body) (s : session) :
  backend.validate_json required f b s
  = if negb (backend.truthy b)
    then (Raise (HTTPException 400 "No JSON data provided"), s)
    else match find (λ k, negb (backend.contains b k)) required with
         | Some k => (Raise (HTTPException 400 ("Missing required field: " +:+ k)), s)
         | None => f b s
         end.
Proof.
  unfold backend.validate_json. destruct (backend.truthy b); simpl; [| done].
  unfold mbind, py_bind. rewrite check_required_spec.
  by destruct (find _ required).
Qed.


(** Looking a student up by id gives the same through the menu and over
    HTTP: the stored row with its id when the id is stored, and nothing
    (the error 404 over HTTP) when it is not; one [SELECT] is sent and the
    table is left as it is. *)
Theorem get_by_id_agree (s : session) (i : Z) :
  let after := Session (data s) (sent s ++ [SelectById i]) in
  match students (data s) !! i with
  | Some r =>
      let x := Student i (r_name r) (r_email r) (r_grade r) (r_created_at r) in
      x ∈ all_students (data s) ∧
      student_manager.get_student_by_id i s = (Return (Some x), after) ∧
      backend.serve (backend.get_student i) s
      = (backend.Responded (backend.Response 200 (backend.OneStudent (Some x))), after)
  | None =>
      (∀ x, x ∈ all_students (data s) → id x ≠ i) ∧
      student_manager.get_student_by_id i s = (Return None, after) ∧
      backend.serve (backend.get_student i) s
      = (backend.Responded (backend.Response 404 (backend.Error "Student not found" 404)),
         after)
  end.
Proof.
  unfold backend.serve, backend.get_student, backend.query_db,
    student_manager.get_student_by_id, execute_query, select_by_id, mbind, py_bind, log.
  simpl. destruct (students (data s) !! i) as [r|] eqn:Hi; simpl.
  - split; [| done]. apply elem_of_all_students. simpl. by destruct r.
  - split; [| done]. intros x Hx%elem_of_all_students Heq. congruence.
Qed.

(** ** Filtered listings *)

(** Listings are nested: every student of a filtered listing is in the
    full listing, and raising the minimum grade only removes students.
    With a minimum of 0 or less the filtered listing holds the students
    whose grade is not NULL; it is the full listing, reordered, when every
    stored grade is an integer within [0,100]. *)
Theorem filtered_listings_nested (s : session) (m m' : Z) :
  ∃ lall lm lm',
    (student_manager.get_all_students s).1 = Return lall ∧
    (student_manager.filter_students_by_grade m s).1 = Return lm ∧
    (student_manager.filter_students_by_grade m' s).1 = Return lm' ∧
    (∀ x, x ∈ lm → x ∈ lall) ∧
    (m ≤ m' → ∀ x, x ∈ lm' → x ∈ lm) ∧
    (m ≤ 0 → consistent (data s) → ∀ x, x ∈ lm ↔ x ∈ lall ∧ is_Some (grade x)) ∧
    (m ≤ 0 → graded (data s) → lm ≡ₚ lall).
Proof.
  eexists _, _, _. do 3 (split; [reflexivity |]).
  destruct (select_all_by_name_spec (data s)) as [Hall _].
  destruct (select_by_min_grade_spec m (data s)) as (Hnd & Hm & _).
  destruct (select_by_min_grade_spec m' (data s)) as (_ & Hm' & _).
  split; [| split; [| split]].
  - intros x [Hx _]%Hm. by rewrite Hall.
  - intros Hle x (Hx & g & Hg & Hge)%Hm'. apply Hm. split; [done |].
    exists g. split; [done | lia].
  - intros Hle (_ & _ & Hck & _) x. rewrite Hm, Hall. split.
    + intros (Hx & g & Hg & _). split; [done | eauto].
    + intros (Hx & g & Hg). split; [done |]. exists g. split; [done |].
      apply elem_of_all_students in Hx. apply Hck in Hx. simpl in Hx.
      rewrite Hg, check_grade_Some in Hx. unfold grade_in_range in Hx. lia.
  - intros Hle Hgr. apply NoDup_Permutation; [done | |].
    + rewrite Hall. apply NoDup_all_students.
    + intros x. rewrite Hm, Hall. split; [by intros [? _] |].
      intros Hx. split; [done |].
      destruct (graded_student _ x Hgr Hx) as (g & Hg & ?).
      exists g. split; [done | lia].
Qed.

(** * The menu *)

(** ** Printing the table *)

Lemma print_rows_ok (l : list student) (w : session * list string) :
  Forall (λ x, is_Some (grade x)) l →
  menu.print_rows l w = (Return (), (w.1, (w.2 ++ (row_text <$> l))%list)).
Proof.
  revert w. induction l as [|x l IH]; intros [s out] Hall; simpl.
  - by rewrite app_nil_r.
  - apply Forall_cons in Hall as [[g Hg] Hall].
    unfold mbind, menu.cli_bind, menu.format_int, menu.print. rewrite Hg. simpl.
    rewrite IH by done. simpl. rewrite <- app_assoc. simpl.
    unfold row_text. by rewrite Hg.
Qed.

Lemma print_rows_null (pre post : list student) (x : student)
    (w : session * list string) :
  Forall (λ y, is_Some (grade y)) pre → grade x = None →
  menu.print_rows (pre ++ x :: post) w
  = (Raise TypeError, (w.1, (w.2 ++ (row_text <$> pre))%list)).
Proof.
  revert w. induction pre as [|y pre IH]; intros [s out] Hall Hx; simpl.
  - unfold mbind, menu.cli_bind, menu.format_int, menu.throw. rewrite Hx. simpl.
    by rewrite app_nil_r.
  - apply Forall_cons in Hall as [[g Hg] Hall].
    unfold mbind, menu.cli_bind, menu.format_int, menu.print. rewrite Hg. simpl.
    rewrite IH by done. simpl. rewrite <- app_assoc. simpl.
    unfold row_text. by rewrite Hg.
Qed.

(** [print_students_table]: an empty list prints the one line "No students
    found."; a list of students whose grades are all integers prints the
    three head lines, one row per student in order, and the closing rule;
    on the first student whose grade is NULL the formatting raises
    [TypeError], after the head and the rows before that student have been
    printed and without the closing rule. *)
Theorem print_students_table_spec (students : list student)
    (w : session * list string) :
  (students = [] →
   menu.print_students_table students w
   = (Return (), (w.1, (w.2 ++ [menu.nl +:+ "No students found."])%list))) ∧
  (students ≠ [] → Forall (λ x, is_Some (grade x)) students →
   menu.print_students_table students w
   = (Return (),
      (w.1, (w.2 ++ table_head ++ (row_text <$> students) ++ [menu.rule 70])%list))) ∧
  (∀ pre x post,
     students = (pre ++ x :: post)%list →
     Forall (λ y, is_Some (grade y)) pre → grade x = None →
     menu.print_students_table students w
     = (Raise TypeError, (w.1, (w.2 ++ table_head ++ (row_text <$> pre))%list))).
Proof.
  destruct w as [s out]. unfold menu.print_students_table. split; [| split].
  - intros ->. done.
  - intros Hne Hall. rewrite decide_False by done.
    unfold mbind, menu.cli_bind, menu.print. simpl.
    rewrite print_rows_ok by done. simpl.
    by rewrite <- !app_assoc.
  - intros pre x post -> Hall Hx. rewrite decide_False by (by destruct pre).
    unfold mbind, menu.cli_bind, menu.print. simpl.
    rewrite print_rows_null by done. simpl.
    by rewrite <- !app_assoc.
Qed.

(** ** What a pass through the menu keeps *)

Section cli_keeps.

Context (P : db → Prop).

Lemma cli_keeps_ret {A} (a : A) : cli_keeps P (mret a : menu.cli A).
Proof. by intros w H. Qed.

Lemma cli_keeps_print (line : string) : cli_keeps P (menu.print line).
Proof. by intros w H. Qed.

Lemma cli_keeps_throw {A} (e : exn) : cli_keeps P (@menu.throw A e).
Proof. by intros w H. Qed.

Lemma cli_keeps_bind {A B} (m : menu.cli A) (f : A → menu.cli B) :
  cli_keeps P m → (∀ a, cli_keeps P (f a)) → cli_keeps P (m ≫= f).
Proof.
  intros Hm Hf w H. specialize (Hm w H). unfold mbind, menu.cli_bind.
  destruct (m w) as [[a|e] w']; simpl in *; [by apply Hf | done].
Qed.

Lemma cli_keeps_call {A} (m : py A) : keeps P m → cli_keeps P (menu.call m).
Proof.
  intros Hm [s out] H. specialize (Hm s H). unfold menu.call. simpl.
  by destruct (m s) as [r s'].
Qed.

Lemma cli_keeps_print_student (student : option student) :
  cli_keeps P (menu.print_student student).
Proof.
  destruct student; simpl; [| apply cli_keeps_print].
  repeat (apply cli_keeps_bind; [apply cli_keeps_print | intros _]).
  apply cli_keeps_print.
Qed.

Lemma cli_keeps_print_rows (l : list student) : cli_keeps P (menu.print_rows l).
Proof.
  induction l as [|x l IH]; simpl; [apply cli_keeps_ret |].
  apply cli_keeps_bind.
  - unfold menu.format_int. destruct (grade x);
      [apply cli_keeps_ret | apply cli_keeps_throw].
  - intros t. apply cli_keeps_bind; [apply cli_keeps_print | by intros _].
Qed.

Lemma cli_keeps_print_students_table (l : list student) :
  cli_keeps P (menu.print_students_table l).
Proof.
  unfold menu.print_students_table. destruct (decide (l = [])); [apply cli_keeps_print |].
  repeat (apply cli_keeps_bind; [apply cli_keeps_print | intros _]).
  apply cli_keeps_bind; [apply cli_keeps_print_rows | intros _].
  apply cli_keeps_print.
Qed.

Lemma cli_keeps_print_statistics (fixed2 : Q → string) (stats : option statistics) :
  cli_keeps P (menu.print_statistics fixed2 stats).
Proof.
  destruct stats; simpl; [| apply cli_keeps_print].
  repeat (apply cli_keeps_bind; [apply cli_keeps_print | intros _]).
  apply cli_keeps_print.
Qed.

Lemma branch_keeps (fixed2 : Q → string) (now : string) (r : menu.request) :
  (∀ t n e g d, P d → P (engine_insert t (Some n) (Some e) (Some g) d).2) →
  (∀ i n e g d, P d → P (engine_update i (Some n) (Some e) (Some g) d).2) →
  (∀ i d, P d → P (engine_delete i d).2) →
  cli_keeps P (menu.branch fixed2 now r).
Proof.
  intros Hins Hupd Hdel.
  destruct r as [| | sid | mg | n e g | sid n e g | sid confirm]; simpl.
  - apply cli_keeps_bind; [apply cli_keeps_call, keeps_query |].
    intros l. apply cli_keeps_print_students_table.
  - apply cli_keeps_bind; [apply cli_keeps_call, keeps_query |].
    intros st. apply cli_keeps_print_statistics.
  - apply cli_keeps_bind; [apply cli_keeps_call, keeps_query |].
    intros st. apply cli_keeps_print_student.
  - apply cli_keeps_bind; [apply cli_keeps_call, keeps_query |].
    intros l. apply cli_keeps_print_students_table.
  - apply cli_keeps_bind; [| intros k; apply cli_keeps_print].
    apply cli_keeps_call. unfold student_manager.add_student.
    repeat keeps_step. apply keeps_insert. intros. by apply Hins.
  - apply cli_keeps_bind; [apply cli_keeps_call, keeps_query |].
    intros [st|]; [| apply cli_keeps_print].
    apply cli_keeps_bind; [apply cli_keeps_print_student | intros _].
    apply cli_keeps_bind.
    + unfold menu.update_student_dyn.
      destruct g as [g|]; [| destruct (grade st) as [g|]]; simpl;
        try apply cli_keeps_throw.
      all: apply cli_keeps_call; unfold student_manager.update_student.
      all: repeat keeps_step.
      all: apply keeps_update; intros; by apply Hupd.
    + intros []; apply cli_keeps_print.
  - destruct (decide (confirm = "yes")); [| apply cli_keeps_print].
    apply cli_keeps_bind; [| intros []; apply cli_keeps_print].
    apply cli_keeps_call. unfold student_manager.delete_student.
    repeat keeps_step. apply keeps_delete. intros. by apply Hdel.
Qed.

Lemma one_pass_keeps fixed2 message now r :
  cli_keeps P (menu.branch fixed2 now r) →
  cli_keeps P (menu.one_pass fixed2 message now r).
Proof.
  intros Hb w H. specialize (Hb w H). unfold menu.one_pass.
  destruct (menu.branch fixed2 now r w) as [[[]|e] w']; [done |].
  by destruct e.
Qed.

End cli_keeps.

(** One pass through the menu always comes back to the prompt: whatever
    was asked and whatever the table holds, no exception leaves the
    [try], and the pass keeps the schema invariants and keeps every grade
    an integer within [0,100].  The four viewing choices leave the table
    as it is, and so does a delete that is not confirmed with "yes", which
    sends nothing. *)
Theorem one_pass_safe (fixed2 : Q → string) (message : exn → string) (now : string)
    (r : menu.request) (w : session * list string) :
  let after := (menu.one_pass fixed2 message now r w).2.1 in
  (menu.one_pass fixed2 message now r w).1 = Return () ∧
  (consistent (data w.1) → consistent (data after)) ∧
  (graded (data w.1) → graded (data after)) ∧
  match r with
  | menu.ViewAll | menu.ViewStatistics | menu.Search _ | menu.Filter _ =>
      data after = data w.1
  | menu.Remove _ confirm => confirm ≠ "yes" → after = w.1
  | _ => True
  end.
Proof.
  simpl. split; [| split; [| split]].
  - unfold menu.one_pass. destruct (menu.branch fixed2 now r w) as [[[]|e] w']; [done |].
    by destruct e.
  - apply (one_pass_keeps consistent), branch_keeps; intros.
    + by apply consistent_insert.
    + by apply consistent_update.
    + by apply consistent_delete.
  - apply (one_pass_keeps graded), branch_keeps; intros.
    + by apply graded_insert.
    + by apply graded_update.
    + by apply graded_delete.
  - destruct r as [| | sid | mg | n e g | sid n e g | sid confirm]; try done.
    all: try (apply (one_pass_keeps (λ d, d = data w.1)); [| done];
              apply cli_keeps_bind; [apply cli_keeps_call, keeps_query |];
              intros ?;
              first [ apply cli_keeps_print_students_table
                    | apply cli_keeps_print_statistics
                    | apply cli_keeps_print_student ]).
    intros Hne. unfold menu.one_pass, menu.branch. by rewrite decide_False.
Qed.

(** ** Viewing *)




(** "Filter by minimum grade" always prints: the filtered listing holds no
    NULL grade, so the pass prints either "No students found." or the
    whole table with one row per listed student and the closing rule. *)
Theorem filter_view_prints (fixed2 : Q → string) (now : string) (m : Z)
    (s : session) (out : list string) :
  let l := select_by_min_grade m (data s) in
  menu.branch fixed2 now (menu.Filter m) (s, out)
  = (Return (),
     (Session (data s) (sent s ++ [SelectByMinGrade m]),
      (out ++ if decide (l = []) then [menu.nl +:+ "No students found."]
              else table_head ++ (row_text <$> l) ++ [menu.rule 70])%list)).
Proof.
  simpl.
  unfold menu.branch, menu.call, student_manager.filter_students_by_grade,
    execute_query, menu.print_students_table, mbind, menu.cli_bind, menu.print, log.
  simpl. destruct (decide (select_by_min_grade m (data s) = [])) as [Heq | Hne];
    [done |].
  simpl. rewrite print_rows_ok; [simpl; by rewrite <- !app_assoc |].
  apply Forall_forall. intros x Hx.
  apply (proj1 (proj2 (select_by_min_grade_spec m (data s)))) in Hx
    as (_ & g & Hg & _). eauto.
Qed.

(** ** Printing the statistics *)

Lemma sum_zero (l : list Z) : (∀ x, x ∈ l → x = 0) → foldr Z.add 0 l = 0.
Proof.
  induction l as [|x l IH]; intros H; simpl; [done |].
  rewrite (H x) by left. rewrite IH; [done |]. intros y Hy. apply H. by right.
Qed.

Lemma zero_average (d : db) :
  (∀ x, x ∈ all_students d → grade x = None ∨ grade x = Some 0) →
  sql_avg (scan d) = None ∨ ∃ q, sql_avg (scan d) = Some q ∧ menu.nonzero q = false.
Proof.
  intros Hall. unfold sql_avg.
  pose proof (elem_of_scan_grades d) as Hmem.
  destruct (grades (scan d)) as [|g gs]; [by left |]. right.
  eexists. split; [reflexivity |]. unfold menu.nonzero.
  rewrite sum_zero.
  - apply negb_false_iff, Qeq_bool_iff. unfold Qdiv. apply Qmult_0_l.
  - intros y (x & Hx & Hy)%Hmem. destruct (Hall x Hx); congruence.
Qed.

(** An average of zero is shown as missing: when every stored grade is 0
    or NULL, "View statistics" prints "Average Grade: N/A" as its fifth
    line, also when students with grade 0 exist and the average is 0. *)
Theorem zero_average_prints_na (fixed2 : Q → string) (now : string) (s : session)
    (out : list string) :
  (∀ x, x ∈ all_students (data s) → grade x = None ∨ grade x = Some 0) →
  ∃ before after,
    length before = 4%nat ∧
    menu.branch fixed2 now menu.ViewStatistics (s, out)
    = (Return (),
       (Session (data s) (sent s ++ [SelectStatistics]),
        (out ++ before ++ "Average Grade: N/A" :: after)%list)).
Proof.
  intros Hall.
  unfold menu.branch, menu.call, student_manager.get_statistics, execute_query,
    menu.print_statistics, mbind, menu.cli_bind, menu.print, log.
  simpl. unfold select_statistics. simpl average_grade.
  destruct (zero_average (data s) Hall) as [-> | (q & -> & ->)].
  all: eexists [_; _; _; _], _; (split; [reflexivity |]); simpl;
    rewrite <- !app_assoc; simpl; reflexivity.
Qed.

Lemma zero_average_prints_na_witness :
  (∀ x, x ∈ all_students zero_student → grade x = None ∨ grade x = Some 0) ∧
  average_grade (select_statistics zero_student) = Some (0 # 1)%Q ∧
  ∃ before after,
    length before = 4%nat ∧
    menu.branch (λ _, "0.00") "" menu.ViewStatistics (fresh zero_student, [])
    = (Return (),
       (Session zero_student [SelectStatistics],
        ([] ++ before ++ "Average Grade: N/A" :: after)%list)).
Proof.
  assert (∀ x, x ∈ all_students zero_student → grade x = None ∨ grade x = Some 0) as H.
  { intros x Hx. right. unfold all_students in Hx.
    assert (map_to_list (students zero_student)
            = [(1, Row "Zoe" "zoe@school.edu" (Some 0) "2024-01-01 00:00:00")]) as E
      by (by vm_compute).
    rewrite E in Hx. apply list_elem_of_singleton in Hx. by subst. }
  split; [exact H |]. split; [by vm_compute |].
  exact (zero_average_prints_na (λ _, "0.00") "" (fresh zero_student) [] H).
Defined.

(** ** The update choice *)

(** Prompts left blank keep the stored value.  For a stored student, with
    the name, email and grade that result from the entries (a blank entry
    standing for the stored value), when that grade is an integer within
    [0,100] and no other student has that email, the update choice sends
    the look-up and the [UPDATE], stores exactly those three values beside
    the old [created_at], and ends with the success line; with the three
    prompts left blank the row stays what it was. *)
Theorem change_keeps_blank_fields (fixed2 : Q → string) (now : string) (s : session)
    (out : list string) (i : Z) (old : row) (name_input email_input : string)
    (grade_input : option Z) (g : Z) :
  let n := if decide (name_input = "") then r_name old else name_input in
  let e := if decide (email_input = "") then r_email old else email_input in
  students (data s) !! i = Some old →
  match grade_input with Some g' => Some g' | None => r_grade old end = Some g →
  grade_in_range g = true →
  email_taken (students (data s)) (Some i) e = false →
  ∃ printed,
    menu.branch fixed2 now (menu.Change i name_input email_input grade_input) (s, out)
    = (Return (),
       (Session (Db (<[i := Row n e (Some g) (r_created_at old)]> (students (data s)))
                    (seq (data s)))
          (sent s ++ [SelectById i] ++ [Update i (Some n) (Some e) (Some g)]),
        (out ++ printed ++ [menu.nl +:+ "✓ Student updated successfully"])%list)) ∧
    (name_input = "" → email_input = "" → grade_input = None →
     <[i := Row n e (Some g) (r_created_at old)]> (students (data s))
     = students (data s)).
Proof.
  intros n e Hi Hgrade Hg He.
  eexists [_; _; _; _; _]. split.
  - unfold menu.branch, menu.call, student_manager.get_student_by_id, execute_query,
      select_by_id, menu.print_student, menu.update_student_dyn, mbind, menu.cli_bind,
      menu.print, log.
    simpl. rewrite Hi. simpl. rewrite Hgrade. simpl. fold n e.
    unfold menu.call. rewrite (menu_update_ok _ i old n e g); try done. simpl.
    by rewrite <- !app_assoc.
  - intros -> -> ->. subst n e. simpl in *. apply insert_id. rewrite Hi.
    destruct old; simpl in *. by rewrite Hgrade.
Qed.

Lemma change_keeps_blank_fields_witness :
  students one_student !! 1
    = Some (Row "Ann" "ann@school.edu" (Some 90) "2024-01-01 00:00:00") ∧
  grade_in_range 90 = true ∧
  email_taken (students one_student) (Some 1) "ann@school.edu" = false ∧
  ∃ printed,
    menu.branch (λ _, "") "" (menu.Change 1 "" "" None) (fresh one_student, [])
    = (Return (),
       (Session (Db (<[1 := Row "Ann" "ann@school.edu" (Some 90) "2024-01-01 00:00:00"]>
                       (students one_student)) (seq one_student))
          [SelectById 1; Update 1 (Some "Ann") (Some "ann@school.edu") (Some 90)],
        ([] ++ printed ++ [menu.nl +:+ "✓ Student updated successfully"])%list)).
Proof.
  split; [by vm_compute |]. split; [reflexivity |]. split; [by vm_compute |].
  destruct (change_keeps_blank_fields (λ _, "") "" (fresh one_student) [] 1
              (Row "Ann" "ann@school.edu" (Some 90) "2024-01-01 00:00:00")
              "" "" None 90) as (printed & H & _);
    [by vm_compute | reflexivity | reflexivity | by vm_compute |].
  exists printed. exact H.
Defined.

(** A student without a grade cannot be updated through the menu while the
    grade prompt is left blank: the stored NULL is passed on, the range
    comparison raises [TypeError], the pass prints the student and then
    "Unexpected error", and only the look-up has been sent. *)
Theorem change_blank_on_null_grade (fixed2 : Q → string) (message : exn → string)
    (now : string) (s : session) (out : list string) (i : Z) (old : row)
    (name_input email_input : string) :
  students (data s) !! i = Some old →
  r_grade old = None →
  ∃ printed,
    menu.one_pass fixed2 message now
      (menu.Change i name_input email_input None) (s, out)
    = (Return (),
       (Session (data s) (sent s ++ [SelectById i]),
        (out ++ printed
         ++ [menu.nl +:+ "✗ Unexpected error: " +:+ message TypeError])%list)).
Proof.
  intros Hi Hnull. eexists [_; _; _; _; _].
  unfold menu.one_pass, menu.branch, menu.call, student_manager.get_student_by_id,
    execute_query, select_by_id, menu.print_student, menu.update_student_dyn, mbind,
    menu.cli_bind, menu.print, menu.throw, log.
  simpl. rewrite Hi. simpl. rewrite Hnull. simpl.
  by rewrite <- !app_assoc.
Qed.

Lemma change_blank_on_null_grade_witness :
  students null_grade_db !! 1
    = Some (Row "Ann" "ann@school.edu" None "2024-01-01 00:00:00") ∧
  r_grade (Row "Ann" "ann@school.edu" None "2024-01-01 00:00:00") = None ∧
  ∃ printed,
    menu.one_pass (λ _, "") (λ _, "") "" (menu.Change 1 "Anna" "" None)
      (fresh null_grade_db, [])
    = (Return (),
       (Session null_grade_db [SelectById 1],
        ([] ++ printed ++ [menu.nl +:+ "✗ Unexpected error: " +:+ ""])%list)).
Proof.
  split; [by vm_compute |]. split; [reflexivity |].
  apply (change_blank_on_null_grade (λ _, "") (λ _, "") "" (fresh null_grade_db) [] 1
           (Row "Ann" "ann@school.edu" None "2024-01-01 00:00:00")).
  - by vm_compute.
  - reflexivity.
Defined.
